(** * shopify-app-remix: the login handler and webhook registration

    A shallow embedding of

    - [loginFactory] / [login]
      (packages/shopify-app-remix/src/auth/login/login.ts), and
    - [registerWebhooksFactory] / [registerWebhooks]
      (the last fragment of packages/shopify-app-remix/docs/i18n.md),

    together with the properties the specification states about them.

    Both handlers are glue around three injected collaborators ([api],
    [config], [logger]).  The collaborators live outside the handlers, so
    they are modelled as transitions on an abstract world [W]; a handler is
    a computation in a small monad that threads the world, records every
    call it makes to a collaborator, and completes either normally or by
    throwing.

    Two library calls of the handlers can throw by themselves:
    [redirect], when the target is not a value a [Location] header can
    carry, and [JSON.stringify], when its argument cannot be serialised.
    Both are taken from the platform ([Runtime], [JSON_stringify]), with
    their throwing paths. *)

From Stdlib Require Import String Ascii List Bool Arith Lia.
Import ListNotations.
Open Scope string_scope.

Set Implicit Arguments.

(* ================================================================== *)
(** * JavaScript values *)
(* ================================================================== *)

(** A [File] entry of a multipart form; only its identity matters here. *)
Record File : Type := { file_name : string }.

(** The run-time values a `shop` variable and a log context can hold.
    TypeScript types [shop] as [string | null], but the value comes from
    [FormData.get] through an unchecked cast, so it can be a [File];
    [undefined] is what [JSON.stringify] answers for a value that has no
    JSON form. *)
Inductive JsValue : Type :=
| JsNull
| JsUndefined
| JsString (s : string)
| JsFile (f : File).

(** JavaScript truthiness: [null], [undefined] and the empty string are
    falsy, every object is truthy. *)
Definition truthy (v : JsValue) : bool :=
  match v with
  | JsNull => false
  | JsUndefined => false
  | JsString s => negb (s =? "")
  | JsFile _ => true
  end.

(** An [Error] object. *)
Record JsError : Type := { error_name : string; error_message : string }.

(** A settled promise. *)
Inductive Settled (A : Type) : Type :=
| Fulfilled (a : A)
| Rejected (reason : JsError).
Arguments Rejected {A} reason.

(** [String.prototype.startsWith] and [String.prototype.indexOf] with a
    one-argument call.  The patterns used by the handler are ASCII, so
    working on bytes rather than UTF-16 code units gives the same answers. *)
Definition startsWith (s p : string) : bool := String.prefix p s.

Definition indexOf (s p : string) : option nat := String.index 0 p s.

(* ================================================================== *)
(** * Requests *)
(* ================================================================== *)

Inductive FormDataEntryValue : Type :=
| EntryString (s : string)
| EntryFile (f : File).

Definition entry_value (e : FormDataEntryValue) : JsValue :=
  match e with
  | EntryString s => JsString s
  | EntryFile f => JsFile f
  end.

(** [FormData] and [URLSearchParams] keep their entries in order and allow
    repeated names; [get] answers with the first entry of that name, or
    [null]. *)
Definition FormData : Type := list (string * FormDataEntryValue).

Fixpoint FormData_get (fd : FormData) (name : string) : JsValue :=
  match fd with
  | [] => JsNull
  | (k, e) :: rest => if k =? name then entry_value e else FormData_get rest name
  end.

Definition URLSearchParams : Type := list (string * string).

Fixpoint URLSearchParams_get (sp : URLSearchParams) (name : string) : JsValue :=
  match sp with
  | [] => JsNull
  | (k, v) :: rest => if k =? name then JsString v else URLSearchParams_get rest name
  end.

(** [new URL(request.url)]: the part before the query, and the decoded
    query. *)
Record URL : Type := {
  url_base : string;
  searchParams : URLSearchParams
}.

(** A [Request], seen through the two things [login] asks of it: its URL
    and the promise returned by [request.formData()], which is rejected
    when the body cannot be read as form data. *)
Record Request : Type := {
  request_url : URL;
  request_formData : Settled FormData
}.

(** A [Response], seen through its status and its [Location] header. *)
Record Response : Type := {
  status : nat;
  location : string
}.

(* ================================================================== *)
(** * Types of the package *)
(* ================================================================== *)

(** Modelled from the spec: the enum [LoginErrorType] of [../../types],
    which is not among the sources; the specification gives its members as
    [MissingShop | InvalidProtocol | InvalidShop]. *)
Inductive LoginErrorType : Type :=
| MissingShop
| InvalidProtocol
| InvalidShop.

(** Modelled from the spec: the interface [LoginError] of [../../types];
    [login] builds it as the object literal [{shop: LoginErrorType.X}]. *)
Record LoginError : Type := { shop : LoginErrorType }.

(** The session object of the API client; the handlers read [shop] only. *)
Record Session : Type := {
  session_id : string;
  session_shop : string
}.

Record RegisterWebhooksOptions : Type := { session : Session }.

Inductive LogLevel : Type := LogDebug | LogInfo | LogError.

Definition LogContext : Type := list (string * JsValue).

(* ================================================================== *)
(** * Completions and recorded calls *)
(* ================================================================== *)

(** What a handler can throw: [login] throws a [Response]; a method call
    on a value that lacks the method and a rejected promise under [await]
    throw an [Error]. *)
Inductive Thrown : Type :=
| ThrownResponse (r : Response)
| ThrownError (e : JsError).

Inductive Completion (A : Type) : Type :=
| Normal (a : A)
| Throw (t : Thrown).
Arguments Throw {A} t.

(** What the handlers use of the platform they run on: whether a
    [Headers] object accepts a string as the value of a header.  A
    [Headers] throws a [TypeError] on a value it does not accept (a line
    break, for one). *)
Class Runtime : Type := {
  header_value_ok : string -> bool
}.

Definition TypeError (message : string) : JsError :=
  {| error_name := "TypeError"; error_message := message |}.

(** [redirect(url)] of the web framework: it sets the [Location] header
    to [url], which throws when the header cannot carry it, and returns
    the 302 response with that header. *)
Definition redirect `{Runtime} (url : string) : Completion Response :=
  if header_value_ok url
  then Normal {| status := 302; location := url |}
  else Throw (ThrownError (TypeError "Invalid header value")).

(** The calls a handler makes to its collaborators, as a test spy would
    record them. *)
Inductive Call : Type :=
| CallLogger (lvl : LogLevel) (message : string) (context : LogContext)
| CallSanitizeShop (arg : string)
| CallWebhooksRegister (arg : Session).

(* ================================================================== *)
(** * Handlers *)
(* ================================================================== *)

Section Handlers.

(** The world outside the handlers: the logger's sink, the state of the
    API client, the remote platform. *)
Context {W : Type}.

(** The platform the handlers run on. *)
Context `{Runtime}.

(** The [result] field of a registration result is an arbitrary value of
    the API client; the handler only serialises it.  [JSON.stringify]
    answers a string, or [undefined] for a value with no JSON form, or
    throws (a cycle, a [BigInt]). *)
Context {Json : Type}.
Variable JSON_stringify : Json -> Completion JsValue.

(** One element of the arrays in the API client's [RegisterReturn]; the
    handler destructures [success] and reads [operation] and [result]. *)
Record RegisterResult : Type := {
  success : bool;
  operation : string;
  result : Json
}.

(** [RegisterReturn] is a [Record<string, RegisterResult[]>]; it is kept
    in the order [Object.entries] enumerates it. *)
Definition RegisterReturn : Type := list (string * list RegisterResult).

Definition Object_entries (r : RegisterReturn) : list (string * list RegisterResult) := r.

(** ** The injected collaborators ([BasicParams]) *)

(** A collaborator answers and may change the world.  [sanitizeShop] is
    called with one argument, so it answers [null] for a shop it refuses
    and does not throw; the logger's methods return nothing.
    [webhooks.register] returns a promise, which may be rejected. *)

Record Api : Type := {
  utils_sanitizeShop : string -> W -> option string * W;
  webhooks_register : Session -> W -> Settled RegisterReturn * W
}.

Record AuthConfig : Type := { path : string }.
Record AppConfig : Type := { auth : AuthConfig }.

Record Logger : Type := {
  log : LogLevel -> string -> LogContext -> W -> W
}.

Record BasicParams : Type := {
  api : Api;
  config : AppConfig;
  logger : Logger
}.

(** ** The monad of a handler *)

Record Run (A : Type) : Type := {
  completion : Completion A;
  world : W;
  calls : list Call
}.

Definition M (A : Type) : Type := W -> Run A.

Definition ret {A} (a : A) : M A :=
  fun w => {| completion := Normal a; world := w; calls := [] |}.

Definition throw {A} (t : Thrown) : M A :=
  fun w => {| completion := Throw t; world := w; calls := [] |}.

Definition bind {A B} (m : M A) (k : A -> M B) : M B :=
  fun w =>
    let r := m w in
    match completion r with
    | Normal a =>
        let r' := k a (world r) in
        {| completion := completion r';
           world := world r';
           calls := calls r ++ calls r' |}
    | Throw t =>
        {| completion := Throw t; world := world r; calls := calls r |}
    end.

Notation "x <- m ;; k" := (bind m (fun x => k))
  (at level 61, m at next level, right associativity).
Notation "m ;;; k" := (bind m (fun _ => k))
  (at level 61, right associativity).

(** [await p] for a promise that has settled. *)
Definition await {A} (p : Settled A) : M A :=
  match p with
  | Fulfilled a => ret a
  | Rejected e => throw (ThrownError e)
  end.

(** A step that calls no collaborator: it completes as [c] does. *)
Definition lift {A} (c : Completion A) : M A :=
  fun w => {| completion := c; world := w; calls := [] |}.

(** Calling a [String] method on [v]: a string is its own receiver, any
    other value the variable can hold has no such method. *)
Definition string_receiver (v : JsValue) (method : string) : M string :=
  match v with
  | JsString s => ret s
  | JsNull => throw (ThrownError (TypeError ("Cannot read properties of null (reading '" ++ method ++ "')")))
  | JsUndefined => throw (ThrownError (TypeError ("Cannot read properties of undefined (reading '" ++ method ++ "')")))
  | JsFile _ => throw (ThrownError (TypeError ("shop." ++ method ++ " is not a function")))
  end.

Variable params : BasicParams.

Definition logger_call (lvl : LogLevel) (message : string) (context : LogContext) : M unit :=
  fun w => {| completion := Normal tt;
              world := log (logger params) lvl message context w;
              calls := [CallLogger lvl message context] |}.

Definition logger_debug := logger_call LogDebug.
Definition logger_info := logger_call LogInfo.
Definition logger_error := logger_call LogError.

(** [!v] and [`${v}`]-interpolation are defined on every value; the
    sanitizer's [string | null] answer is read through them. *)
Definition sanitized_value (answer : option string) : JsValue :=
  match answer with
  | Some s => JsString s
  | None => JsNull
  end.

Definition template (v : JsValue) : string :=
  match v with
  | JsNull => "null"
  | JsUndefined => "undefined"
  | JsString s => s
  | JsFile _ => "[object File]"
  end.

Definition api_utils_sanitizeShop (arg : string) : M JsValue :=
  fun w => let '(answer, w') := utils_sanitizeShop (api params) arg w in
           {| completion := Normal (sanitized_value answer); world := w';
              calls := [CallSanitizeShop arg] |}.

(** [api.webhooks.register({session})] followed by the promise's
    settlement. *)
Definition api_webhooks_register (arg : Session) : M RegisterReturn :=
  fun w => let '(p, w') := webhooks_register (api params) arg w in
           match p with
           | Fulfilled response =>
               {| completion := Normal response; world := w';
                  calls := [CallWebhooksRegister arg] |}
           | Rejected e =>
               {| completion := Throw (ThrownError e); world := w';
                  calls := [CallWebhooksRegister arg] |}
           end.

(** ** [login] *)

(** Lines 12-14: the form's `shop` when it is truthy, else the query's. *)
Definition select_shop (formData : FormData) (url : URL) : JsValue :=
  if truthy (FormData_get formData "shop")
  then FormData_get formData "shop"
  else URLSearchParams_get (searchParams url) "shop".

(** Lines 26-27. *)
Definition shopWithDot_of (shop : string) : string :=
  match indexOf shop "." with
  | None => shop ++ ".myshopify.com"
  | Some _ => shop
  end.

Definition login (request : Request) : M LoginError :=
  let url := request_url request in
  formData <- await (request_formData request) ;;
  let shop := select_shop formData url in
  if negb (truthy shop) then
    logger_debug "Missing shop parameter" [("shop", shop)] ;;;
    ret {| shop := MissingShop |}
  else
    s <- string_receiver shop "startsWith" ;;
    if startsWith s "http" then
      logger_debug "Shop parameter contained protocol" [("shop", shop)] ;;;
      ret {| shop := InvalidProtocol |}
    else
      let shopWithDot := shopWithDot_of s in
      sanitizedShop <- api_utils_sanitizeShop shopWithDot ;;
      if negb (truthy sanitizedShop) then
        logger_debug "Invalid shop parameter" [("shop", JsString shopWithDot)] ;;;
        ret {| shop := InvalidShop |}
      else
        let redirectUrl :=
          path (auth (config params)) ++ "?shop=" ++ template sanitizedShop in
        logger_info ("Redirecting login request to " ++ redirectUrl)
                    [("shop", sanitizedShop)] ;;;
        response <- lift (redirect redirectUrl) ;;
        throw (ThrownResponse response).

(** ** [registerWebhooks] *)

Fixpoint forEach {A} (xs : list A) (callback : A -> M unit) : M unit :=
  match xs with
  | [] => ret tt
  | x :: rest => callback x ;;; forEach rest callback
  end.

(** The body of the inner [forEach]: [({success, ...rest}) => ...].  The
    argument of [logger.error] is built, and so [rest.result] serialised,
    before the logger is called. *)
Definition log_topic_result (topic : string) (s : Session) (r : RegisterResult) : M unit :=
  if success r then
    logger_debug "Registered webhook"
      [("topic", JsString topic);
       ("shop", JsString (session_shop s));
       ("operation", JsString (operation r))]
  else
    serialised <- lift (JSON_stringify (result r)) ;;
    logger_error "Failed to register webhook"
      [("topic", JsString topic);
       ("shop", JsString (session_shop s));
       ("result", serialised)].

(** [JSON.stringify] returns for the [result] of [r]. *)
Definition serialisable (r : RegisterResult) : Prop :=
  exists v : JsValue, JSON_stringify (result r) = Normal v.

Definition registerWebhooks (options : RegisterWebhooksOptions) : M RegisterReturn :=
  let s := session options in
  response <- api_webhooks_register s ;;
  forEach (Object_entries response)
          (fun entry => let '(topic, topicResults) := entry in
                        forEach topicResults (log_topic_result topic s)) ;;;
  ret response.

(** The loop over the response, as [registerWebhooks] runs it. *)
Definition report_response (s : Session) (response : RegisterReturn) : M unit :=
  forEach (Object_entries response)
          (fun entry => let '(topic, topicResults) := entry in
                        forEach topicResults (log_topic_result topic s)).

(** ** The checks of [login] *)

(** The sanitizer's answer to [arg] in the world [w]. *)
Definition sanitizer_answer (arg : string) (w : W) : option string :=
  fst (utils_sanitizeShop (api params) arg w).

(** The three guards of [login], on the selected [shop] value: [!shop],
    [shop.startsWith('http')] and [!sanitizedShop]. *)
Definition missing_shop (shop : JsValue) : Prop :=
  truthy shop = false.

Definition has_protocol (shop : JsValue) : Prop :=
  exists s, shop = JsString s /\ startsWith s "http" = true.

Definition rejected_by_sanitizer (shop : JsValue) (w : W) : Prop :=
  exists s, shop = JsString s /\
            truthy (sanitized_value (sanitizer_answer (shopWithDot_of s) w)) = false.

(** A shop written as a web URL: it begins with [http://] or [https://]. *)
Definition has_web_scheme (shop : JsValue) : Prop :=
  exists s, shop = JsString s /\
            (startsWith s "http://" = true \/ startsWith s "https://" = true).

(** Validation of the shop fails: the shop is missing, it is written as a
    web URL, or the sanitizer refuses it. *)
Definition validation_fails (shop : JsValue) (w : W) : Prop :=
  missing_shop shop \/ has_web_scheme shop \/ rejected_by_sanitizer shop w.

(** No guard fires, and the sanitizer answers [sanitized]. *)
Definition validation_passes (shop : JsValue) (w : W) (sanitized : string) : Prop :=
  exists s, shop = JsString s /\ s <> "" /\ startsWith s "http" = false /\
            sanitizer_answer (shopWithDot_of s) w = Some sanitized /\
            sanitized <> "".

(** ** Reading a run *)

(** The arguments of the sanitizer calls, and of the registration calls,
    in a record of calls. *)
Fixpoint sanitize_calls (cs : list Call) : list string :=
  match cs with
  | [] => []
  | CallSanitizeShop arg :: rest => arg :: sanitize_calls rest
  | _ :: rest => sanitize_calls rest
  end.

Fixpoint register_calls (cs : list Call) : list Session :=
  match cs with
  | [] => []
  | CallWebhooksRegister arg :: rest => arg :: register_calls rest
  | _ :: rest => register_calls rest
  end.

Definition is_logger_call (c : Call) : bool :=
  match c with
  | CallLogger _ _ _ => true
  | _ => false
  end.

Definition is_error_log (c : Call) : bool :=
  match c with
  | CallLogger LogError _ _ => true
  | _ => false
  end.

Definition error_log_count (cs : list Call) : nat :=
  length (filter is_error_log cs).

(** A computation that only logs: it completes normally, calls nothing
    but the logger, and makes [n] calls at the error level. *)
Definition only_logs (m : M unit) (n : nat) : Prop :=
  forall w : W,
    completion (m w) = Normal tt /\
    Forall (fun c => is_logger_call c = true) (calls (m w)) /\
    error_log_count (calls (m w)) = n.

(** The results of a response that report failure, each with its topic,
    in the order of the response. *)
Definition failed_results (response : RegisterReturn) : list (string * RegisterResult) :=
  flat_map (fun entry => let '(topic, topicResults) := entry in
                         map (pair topic) (filter (fun r => negb (success r)) topicResults))
           (Object_entries response).

(** The value a log context holds under [key] ([null] when it has none). *)
Fixpoint context_get (context : LogContext) (key : string) : JsValue :=
  match context with
  | [] => JsNull
  | (k, v) :: rest => if k =? key then v else context_get rest key
  end.

(** What a reader of the log sees of a call: for a logger call its level
    and the `topic` and `shop` of its context. *)
Definition log_summary (c : Call) : option (LogLevel * JsValue * JsValue) :=
  match c with
  | CallLogger lvl _ context =>
      Some (lvl, context_get context "topic", context_get context "shop")
  | _ => None
  end.

(** One entry per result of a response, in the order of the response:
    debug for a success, error for a failure, with the result's topic and
    the session's shop. *)
Definition result_summaries (s : Session) (response : RegisterReturn)
  : list (option (LogLevel * JsValue * JsValue)) :=
  flat_map (fun entry =>
              let '(topic, topicResults) := entry in
              map (fun r => Some (if success r then LogDebug else LogError,
                                  JsString topic, JsString (session_shop s)))
                  topicResults)
           (Object_entries response).

(** What one recorded call does to the world, by the collaborator's own
    transition, and what a record of calls does from left to right. *)
Definition call_effect (c : Call) (w : W) : W :=
  match c with
  | CallLogger lvl message context => log (logger params) lvl message context w
  | CallSanitizeShop arg => snd (utils_sanitizeShop (api params) arg w)
  | CallWebhooksRegister arg => snd (webhooks_register (api params) arg w)
  end.

Definition replay (cs : list Call) (w : W) : W :=
  fold_left (fun w c => call_effect c w) cs w.

(** A computation whose effect on the world is the effect of its
    recorded calls, and one that calls nothing but the logger -- however
    it completes. *)
Definition replayable (m : M unit) : Prop :=
  forall w : W, world (m w) = replay (calls (m w)) w.

Definition calls_logger_only (m : M unit) : Prop :=
  forall w : W, Forall (fun c => is_logger_call c = true) (calls (m w)).

End Handlers.

Arguments RegisterResult Json : clear implicits.
Arguments RegisterReturn Json : clear implicits.
Arguments Api W Json : clear implicits.
Arguments Logger W : clear implicits.
Arguments BasicParams W Json : clear implicits.
Arguments Run W A : clear implicits.
Arguments M W A : clear implicits.

(* ================================================================== *)
(** * Test doubles *)
(* ================================================================== *)

(** Concrete collaborators on which the handlers can be run: a logger that
    appends its message to a list, and an API client whose sanitizer
    accepts exactly the names [<label>.myshopify.com] with a non-empty
    label of lower-case letters, digits and hyphens. *)

Definition is_label_char (c : ascii) : bool :=
  let n := nat_of_ascii c in
  ((97 <=? n)%nat && (n <=? 122)%nat) || ((48 <=? n)%nat && (n <=? 57)%nat) || (n =? 45)%nat.

Fixpoint is_shop_domain (s : string) : bool :=
  match s with
  | EmptyString => false
  | String c rest =>
      is_label_char c && ((rest =? ".myshopify.com") || is_shop_domain rest)
  end.

Definition TestWorld : Type := list string.

Definition test_sanitizeShop (arg : string) (w : TestWorld) : option string * TestWorld :=
  (if is_shop_domain arg then Some arg else None, w).

(** A platform whose headers refuse NUL, line feed and carriage return,
    and whose serialiser throws on the value written [<cycle>] and has no
    JSON form for the value written [<undefined>]. *)
Fixpoint no_line_break (s : string) : bool :=
  match s with
  | EmptyString => true
  | String c rest =>
      let n := nat_of_ascii c in
      negb (n =? 0)%nat && negb (n =? 10)%nat && negb (n =? 13)%nat
      && no_line_break rest
  end.

Definition test_runtime : Runtime := {| header_value_ok := no_line_break |}.

Definition test_stringify (j : string) : Completion JsValue :=
  if j =? "<cycle>"
  then Throw (ThrownError (TypeError "Converting circular structure to JSON"))
  else if j =? "<undefined>" then Normal JsUndefined
  else Normal (JsString j).

Definition test_response : RegisterReturn string :=
  [("PRODUCTS_CREATE", [{| success := true; operation := "create"; result := "{}" |}]);
   ("ORDERS_PAID", [{| success := false; operation := "create"; result := "{errors}" |};
                    {| success := true; operation := "update"; result := "{}" |}])].

(** A response whose second result failed with a [result] that cannot be
    serialised. *)
Definition cyclic_response : RegisterReturn string :=
  [("PRODUCTS_CREATE", [{| success := true; operation := "create"; result := "{}" |};
                        {| success := false; operation := "create"; result := "<cycle>" |};
                        {| success := false; operation := "update"; result := "{errors}" |}])].

Definition test_register (s : Session) (w : TestWorld) : Settled (RegisterReturn string) * TestWorld :=
  (if session_shop s =? "offline.myshopify.com"
   then Rejected {| error_name := "FetchError"; error_message := "unreachable" |}
   else if session_shop s =? "cyclic.myshopify.com"
   then Fulfilled cyclic_response
   else Fulfilled test_response,
   w).

Definition test_params : BasicParams TestWorld string :=
  {| api := {| utils_sanitizeShop := test_sanitizeShop;
               webhooks_register := test_register |};
     config := {| auth := {| path := "/auth" |} |};
     logger := {| log := fun _ message _ w => (w ++ [message])%list |} |}.

(** The same collaborators with an auth path that holds a line feed, and
    with a sanitizer that accepts whatever it is given. *)
Definition line_feed : string := String (ascii_of_nat 10) EmptyString.

Definition broken_path_params : BasicParams TestWorld string :=
  {| api := api test_params;
     config := {| auth := {| path := "/auth" ++ line_feed |} |};
     logger := logger test_params |}.

Definition permissive_params : BasicParams TestWorld string :=
  {| api := {| utils_sanitizeShop := fun arg w => (Some arg, w);
               webhooks_register := test_register |};
     config := config test_params;
     logger := logger test_params |}.

Definition test_session : Session :=
  {| session_id := "offline_shop1.myshopify.com"; session_shop := "shop1.myshopify.com" |}.

Definition cyclic_session : Session :=
  {| session_id := "offline_cyclic.myshopify.com"; session_shop := "cyclic.myshopify.com" |}.

(** A POST of the form fields [form] to [/auth/login] with the query
    [query], and a GET whose body is not form data. *)
Definition post_request (form : FormData) (query : URLSearchParams) : Request :=
  {| request_url := {| url_base := "https://app.example/auth/login"; searchParams := query |};
     request_formData := Fulfilled form |}.

Definition unreadable_request (query : URLSearchParams) : Request :=
  {| request_url := {| url_base := "https://app.example/auth/login"; searchParams := query |};
     request_formData := Rejected {| error_name := "TypeError";
                                     error_message := "Could not parse content as FormData." |} |}.

(* ================================================================== *)
(** * The wording of the specification *)
(* ================================================================== *)

(** "A shop that includes a URL scheme", read as the specification words
    it and not as the handler tests it: the value begins with a scheme
    name (a letter, then letters, digits, [+], [-] or [.]) followed by
    [://]. *)
Definition is_alpha (c : ascii) : bool :=
  let n := nat_of_ascii c in
  ((65 <=? n)%nat && (n <=? 90)%nat) || ((97 <=? n)%nat && (n <=? 122)%nat).

Definition is_scheme_char (c : ascii) : bool :=
  let n := nat_of_ascii c in
  is_alpha c || ((48 <=? n)%nat && (n <=? 57)%nat) || (n =? 43)%nat || (n =? 45)%nat || (n =? 46)%nat.

Fixpoint scheme_tail (s : string) : bool :=
  match s with
  | EmptyString => false
  | String c rest =>
      if (nat_of_ascii c =? 58)%nat then startsWith rest "//"
      else is_scheme_char c && scheme_tail rest
  end.

Definition includes_url_scheme (s : string) : bool :=
  match s with
  | EmptyString => false
  | String c rest => is_alpha c && scheme_tail rest
  end.

(** "Contains a '.' character". *)
Definition contains_dot (s : string) : Prop :=
  In "."%char (list_ascii_of_string s).

(** A value carries a shop when [get] answers with something other than
    [null] or the empty string. *)
Definition carries_shop (v : JsValue) : Prop :=
  v <> JsNull /\ v <> JsString "".

(* ================================================================== *)
(* ================================================================== *)
(** * Strings and values *)
(* ================================================================== *)

Lemma truthy_string (s : string) : truthy (JsString s) = true <-> s <> "".
Proof.
  simpl. rewrite negb_true_iff. apply String.eqb_neq.
Qed.

(** [get] answers [null], a string or a file, never [undefined]. *)
Lemma FormData_get_defined (fd : FormData) (name : string) :
  FormData_get fd name <> JsUndefined.
Proof.
  induction fd as [ | [k e] fd IH]; cbn [FormData_get]; [discriminate | ].
  destruct (k =? name); [now destruct e | exact IH].
Qed.

Lemma URLSearchParams_get_defined (sp : URLSearchParams) (name : string) :
  URLSearchParams_get sp name <> JsUndefined.
Proof.
  induction sp as [ | [k v] sp IH]; cbn [URLSearchParams_get]; [discriminate | ].
  destruct (k =? name); [discriminate | exact IH].
Qed.

Lemma truthy_carries (v : JsValue) :
  v <> JsUndefined -> (truthy v = true <-> carries_shop v).
Proof.
  intros Hdef. unfold carries_shop. destruct v as [ | | s | f]; simpl.
  - split; [discriminate | intros [H _]; now contradiction H].
  - now contradiction Hdef.
  - rewrite negb_true_iff, String.eqb_neq. split.
    + intros Hs. split; [discriminate | congruence].
    + intros [_ Hs] ->. now apply Hs.
  - split; [intros _; split; discriminate | reflexivity].
Qed.

Lemma not_truthy_not_carries (v : JsValue) :
  v <> JsUndefined -> (truthy v = false <-> ~ carries_shop v).
Proof.
  intros Hdef. rewrite <- (truthy_carries Hdef). now destruct (truthy v).
Qed.

Lemma startsWith_nonempty (s p : string) :
  p <> "" -> startsWith s p = true -> s <> "".
Proof.
  intros Hp H ->. destruct p; [now apply Hp | discriminate H].
Qed.

Lemma prefix_empty (s : string) : String.prefix "" s = true.
Proof.
  now destruct s.
Qed.

Lemma prefix_trans (p q s : string) :
  String.prefix p q = true -> String.prefix q s = true -> String.prefix p s = true.
Proof.
  revert q s. induction p as [ | a p IH]; intros q s Hpq Hqs; [apply prefix_empty | ].
  destruct q as [ | b q]; [discriminate Hpq | ].
  destruct s as [ | c s]; [discriminate Hqs | ].
  cbn [String.prefix] in *.
  destruct (ascii_dec a b) as [<- | _]; [ | discriminate Hpq].
  destruct (ascii_dec a c) as [_ | _]; [ | discriminate Hqs].
  now apply (IH q s).
Qed.

(** A shop written as a web URL trips the handler's test. *)
Lemma web_scheme_startsWith_http (s : string) :
  startsWith s "http://" = true \/ startsWith s "https://" = true ->
  startsWith s "http" = true.
Proof.
  unfold startsWith. intros [H | H].
  - now apply (prefix_trans "http" "http://" s).
  - now apply (prefix_trans "http" "https://" s).
Qed.

Lemma index_dot_cons (c : ascii) (s : string) :
  index 0 "." (String c s) =
  if ascii_dec "." c then Some 0
  else match index 0 "." s with
       | Some n => Some (S n)
       | None => None
       end.
Proof.
  cbn [index prefix].
  destruct (ascii_dec "." c); [destruct s | ]; reflexivity.
Qed.

(** [shop.indexOf('.') === -1] says that no character of [shop] is a dot. *)
Lemma indexOf_dot_None (s : string) :
  indexOf s "." = None <-> ~ contains_dot s.
Proof.
  unfold indexOf, contains_dot.
  induction s as [ | c s IH].
  - split; [intros _ [] | reflexivity].
  - rewrite index_dot_cons. cbn [list_ascii_of_string].
    destruct (ascii_dec "." c) as [<- | Hc].
    + split; [discriminate | intros H; exfalso; apply H; now left].
    + destruct (index 0 "." s) as [n | ].
      * split; [discriminate | ].
        intros H. exfalso. apply H. right.
        destruct (in_dec ascii_dec "."%char (list_ascii_of_string s)) as [Hin | Hnin].
        -- exact Hin.
        -- apply IH in Hnin. discriminate Hnin.
      * split; [ | reflexivity].
        intros _ [Heq | Hin]; [now apply Hc | ].
        now apply (proj1 IH).
Qed.

Lemma shopWithDot_bare (s : string) :
  ~ contains_dot s -> shopWithDot_of s = s ++ ".myshopify.com".
Proof.
  intros H. apply indexOf_dot_None in H. unfold shopWithDot_of. now rewrite H.
Qed.

Lemma shopWithDot_dotted (s : string) :
  contains_dot s -> shopWithDot_of s = s.
Proof.
  intros H. unfold shopWithDot_of.
  destruct (indexOf s ".") eqn:E; [reflexivity | ].
  apply indexOf_dot_None in E. contradiction.
Qed.

Lemma select_shop_defined (fd : FormData) (url : URL) :
  select_shop fd url <> JsUndefined.
Proof.
  unfold select_shop.
  destruct (truthy (FormData_get fd "shop"));
    [apply FormData_get_defined | apply URLSearchParams_get_defined].
Qed.
(* ================================================================== *)
(** * The branches of [login] *)
(* ================================================================== *)

Section LoginBranches.

Context `{Runtime} {W Json : Type}.
Variable params : BasicParams W Json.

Local Ltac step_login :=
  unfold login, bind, await, ret, throw, lift, string_receiver,
    logger_debug, logger_info, logger_call, api_utils_sanitizeShop,
    sanitizer_answer in *.

(** [await request.formData()] rejects: nothing else happens. *)
Lemma login_unreadable (req : Request) (e : JsError) (w : W) :
  request_formData req = Rejected e ->
  login params req w =
  {| completion := Throw (ThrownError e); world := w; calls := [] |}.
Proof.
  intros Hfd. step_login. now rewrite Hfd.
Qed.

Lemma login_missing (req : Request) (fd : FormData) (w : W) :
  request_formData req = Fulfilled fd ->
  truthy (select_shop fd (request_url req)) = false ->
  let shop := select_shop fd (request_url req) in
  login params req w =
  {| completion := Normal {| shop := MissingShop |};
     world := log (logger params) LogDebug "Missing shop parameter" [("shop", shop)] w;
     calls := [CallLogger LogDebug "Missing shop parameter" [("shop", shop)]] |}.
Proof.
  intros Hfd Hshop. step_login. rewrite Hfd. cbn [completion world calls app].
  now rewrite Hshop.
Qed.

Lemma login_file (req : Request) (fd : FormData) (f : File) (w : W) :
  request_formData req = Fulfilled fd ->
  select_shop fd (request_url req) = JsFile f ->
  login params req w =
  {| completion := Throw (ThrownError (TypeError "shop.startsWith is not a function"));
     world := w; calls := [] |}.
Proof.
  intros Hfd Hshop. step_login. rewrite Hfd. cbn [completion world calls app].
  now rewrite Hshop.
Qed.

Lemma login_protocol (req : Request) (fd : FormData) (s : string) (w : W) :
  request_formData req = Fulfilled fd ->
  select_shop fd (request_url req) = JsString s ->
  startsWith s "http" = true ->
  login params req w =
  {| completion := Normal {| shop := InvalidProtocol |};
     world := log (logger params) LogDebug "Shop parameter contained protocol"
                  [("shop", JsString s)] w;
     calls := [CallLogger LogDebug "Shop parameter contained protocol"
                          [("shop", JsString s)]] |}.
Proof.
  intros Hfd Hshop Hhttp.
  assert (Ht : truthy (JsString s) = true).
  { apply truthy_string. apply (startsWith_nonempty (p := "http")); [discriminate | exact Hhttp]. }
  step_login. rewrite Hfd. cbn [completion world calls app]. rewrite Hshop, Ht.
  cbn. now rewrite Hhttp.
Qed.

Lemma login_invalid (req : Request) (fd : FormData) (s : string) (w : W) :
  request_formData req = Fulfilled fd ->
  select_shop fd (request_url req) = JsString s ->
  s <> "" ->
  startsWith s "http" = false ->
  truthy (sanitized_value (sanitizer_answer params (shopWithDot_of s) w)) = false ->
  let context := [("shop", JsString (shopWithDot_of s))] in
  login params req w =
  {| completion := Normal {| shop := InvalidShop |};
     world := log (logger params) LogDebug "Invalid shop parameter" context
                  (snd (utils_sanitizeShop (api params) (shopWithDot_of s) w));
     calls := [CallSanitizeShop (shopWithDot_of s);
               CallLogger LogDebug "Invalid shop parameter" context] |}.
Proof.
  intros Hfd Hshop Hs Hhttp Hrej.
  apply truthy_string in Hs.
  step_login. rewrite Hfd. cbn [completion world calls app]. rewrite Hshop, Hs.
  cbn. rewrite Hhttp.
  destruct (utils_sanitizeShop (api params) (shopWithDot_of s) w) as [answer w'].
  cbn in *. now rewrite Hrej.
Qed.

Lemma login_redirect (req : Request) (fd : FormData) (s sanitized : string) (w : W) :
  request_formData req = Fulfilled fd ->
  select_shop fd (request_url req) = JsString s ->
  s <> "" ->
  startsWith s "http" = false ->
  sanitizer_answer params (shopWithDot_of s) w = Some sanitized ->
  sanitized <> "" ->
  let redirectUrl := path (auth (config params)) ++ "?shop=" ++ sanitized in
  let message := "Redirecting login request to " ++ redirectUrl in
  header_value_ok redirectUrl = true ->
  login params req w =
  {| completion := Throw (ThrownResponse {| status := 302; location := redirectUrl |});
     world := log (logger params) LogInfo message [("shop", JsString sanitized)]
                  (snd (utils_sanitizeShop (api params) (shopWithDot_of s) w));
     calls := [CallSanitizeShop (shopWithDot_of s);
               CallLogger LogInfo message [("shop", JsString sanitized)]] |}.
Proof.
  intros Hfd Hshop Hs Hhttp Hans Hsan redirectUrl message Hok.
  apply truthy_string in Hs. apply truthy_string in Hsan.
  step_login. rewrite Hfd. cbn [completion world calls app]. rewrite Hshop, Hs.
  cbn. rewrite Hhttp.
  destruct (utils_sanitizeShop (api params) (shopWithDot_of s) w) as [answer w'].
  cbn in *. subst answer. cbn in *. rewrite Hsan. cbn.
  unfold redirect. fold redirectUrl. now rewrite Hok.
Qed.

(** Every check passes, but [redirect] refuses the target: the sanitizer
    and the logger have been called, and the [TypeError] of [redirect] is
    what [login] throws. *)
Lemma login_redirect_refused (req : Request) (fd : FormData) (s sanitized : string) (w : W) :
  request_formData req = Fulfilled fd ->
  select_shop fd (request_url req) = JsString s ->
  s <> "" ->
  startsWith s "http" = false ->
  sanitizer_answer params (shopWithDot_of s) w = Some sanitized ->
  sanitized <> "" ->
  let redirectUrl := path (auth (config params)) ++ "?shop=" ++ sanitized in
  let message := "Redirecting login request to " ++ redirectUrl in
  header_value_ok redirectUrl = false ->
  login params req w =
  {| completion := Throw (ThrownError (TypeError "Invalid header value"));
     world := log (logger params) LogInfo message [("shop", JsString sanitized)]
                  (snd (utils_sanitizeShop (api params) (shopWithDot_of s) w));
     calls := [CallSanitizeShop (shopWithDot_of s);
               CallLogger LogInfo message [("shop", JsString sanitized)]] |}.
Proof.
  intros Hfd Hshop Hs Hhttp Hans Hsan redirectUrl message Hok.
  apply truthy_string in Hs. apply truthy_string in Hsan.
  step_login. rewrite Hfd. cbn [completion world calls app]. rewrite Hshop, Hs.
  cbn. rewrite Hhttp.
  destruct (utils_sanitizeShop (api params) (shopWithDot_of s) w) as [answer w'].
  cbn in *. subst answer. cbn in *. rewrite Hsan. cbn.
  unfold redirect. fold redirectUrl. now rewrite Hok.
Qed.

(** Every run of [login] is one of the seven above. *)
Inductive LoginCase (req : Request) (w : W) : Prop :=
| case_unreadable e :
    request_formData req = Rejected e -> LoginCase req w
| case_missing fd :
    request_formData req = Fulfilled fd ->
    truthy (select_shop fd (request_url req)) = false -> LoginCase req w
| case_file fd f :
    request_formData req = Fulfilled fd ->
    select_shop fd (request_url req) = JsFile f -> LoginCase req w
| case_protocol fd s :
    request_formData req = Fulfilled fd ->
    select_shop fd (request_url req) = JsString s ->
    startsWith s "http" = true -> LoginCase req w
| case_invalid fd s :
    request_formData req = Fulfilled fd ->
    select_shop fd (request_url req) = JsString s ->
    s <> "" ->
    startsWith s "http" = false ->
    truthy (sanitized_value (sanitizer_answer params (shopWithDot_of s) w)) = false ->
    LoginCase req w
| case_redirect fd s sanitized :
    request_formData req = Fulfilled fd ->
    select_shop fd (request_url req) = JsString s ->
    s <> "" ->
    startsWith s "http" = false ->
    sanitizer_answer params (shopWithDot_of s) w = Some sanitized ->
    sanitized <> "" ->
    header_value_ok (path (auth (config params)) ++ "?shop=" ++ sanitized) = true ->
    LoginCase req w
| case_refused fd s sanitized :
    request_formData req = Fulfilled fd ->
    select_shop fd (request_url req) = JsString s ->
    s <> "" ->
    startsWith s "http" = false ->
    sanitizer_answer params (shopWithDot_of s) w = Some sanitized ->
    sanitized <> "" ->
    header_value_ok (path (auth (config params)) ++ "?shop=" ++ sanitized) = false ->
    LoginCase req w.

Lemma login_case (req : Request) (w : W) : LoginCase req w.
Proof.
  destruct (request_formData req) as [fd | e] eqn:Hfd;
    [ | now apply case_unreadable with e].
  destruct (truthy (select_shop fd (request_url req))) eqn:Ht;
    [ | now apply case_missing with fd].
  destruct (select_shop fd (request_url req)) as [ | | s | f] eqn:Hshop.
  - discriminate Ht.
  - discriminate Ht.
  - apply truthy_string in Ht.
    destruct (startsWith s "http") eqn:Hhttp;
      [now apply case_protocol with fd s | ].
    destruct (sanitizer_answer params (shopWithDot_of s) w) as [sanitized | ] eqn:Hans.
    + destruct (truthy (JsString sanitized)) eqn:Hsan.
      * apply truthy_string in Hsan.
        destruct (header_value_ok (path (auth (config params)) ++ "?shop=" ++ sanitized))
          eqn:Hok.
        -- now apply case_redirect with fd s sanitized.
        -- now apply case_refused with fd s sanitized.
      * apply case_invalid with fd s; auto. now rewrite Hans.
    + apply case_invalid with fd s; auto. now rewrite Hans.
  - now apply case_file with fd f.
Qed.

(** A non-empty shop that does not start with "http" is normalised and
    handed to the sanitizer, once, however the run ends. *)
Lemma login_sanitizes (req : Request) (fd : FormData) (s : string) (w : W) :
  request_formData req = Fulfilled fd ->
  select_shop fd (request_url req) = JsString s ->
  s <> "" ->
  startsWith s "http" = false ->
  sanitize_calls (calls (login params req w)) = [shopWithDot_of s].
Proof.
  intros Hfd Hsel Hne Hhttp.
  destruct (sanitizer_answer params (shopWithDot_of s) w) as [sanitized | ] eqn:Hans.
  - destruct (truthy (JsString sanitized)) eqn:Hsan.
    + apply truthy_string in Hsan.
      destruct (header_value_ok (path (auth (config params)) ++ "?shop=" ++ sanitized))
        eqn:Hok.
      * now rewrite (login_redirect req w Hfd Hsel Hne Hhttp Hans Hsan Hok).
      * now rewrite (login_redirect_refused req w Hfd Hsel Hne Hhttp Hans Hsan Hok).
    + rewrite (login_invalid req w Hfd Hsel Hne Hhttp); [reflexivity | ].
      now rewrite Hans.
  - rewrite (login_invalid req w Hfd Hsel Hne Hhttp); [reflexivity | ].
    now rewrite Hans.
Qed.

End LoginBranches.

(** Take the run of [login] on [req] in [w] apart, and rewrite it by the
    lemma of its branch wherever it occurs. *)
Ltac login_cases params req w :=
  destruct (login_case params req w)
    as [e0 He0 | fd0 Hfd0 Hm0 | fd0 f0 Hfd0 Hf0 | fd0 s0 Hfd0 Hs0 Hh0
        | fd0 s0 Hfd0 Hs0 Hne0 Hh0 Hrej0
        | fd0 s0 sanitized0 Hfd0 Hs0 Hne0 Hh0 Hans0 Hsan0 Hok0
        | fd0 s0 sanitized0 Hfd0 Hs0 Hne0 Hh0 Hans0 Hsan0 Hok0];
  [ rewrite ?(login_unreadable params req w He0) in *
  | rewrite ?(login_missing params req w Hfd0 Hm0) in *
  | rewrite ?(login_file params req w Hfd0 Hf0) in *
  | rewrite ?(login_protocol params req w Hfd0 Hs0 Hh0) in *
  | rewrite ?(login_invalid params req w Hfd0 Hs0 Hne0 Hh0 Hrej0) in *
  | rewrite ?(login_redirect params req w Hfd0 Hs0 Hne0 Hh0 Hans0 Hsan0 Hok0) in *
  | rewrite ?(login_redirect_refused params req w Hfd0 Hs0 Hne0 Hh0 Hans0 Hsan0 Hok0) in * ].

(* ================================================================== *)
(** * Properties of [login] *)
(* ================================================================== *)

Section LoginProperties.

Context `{Runtime} {W Json : Type}.
Variable params : BasicParams W Json.

(** C1 (amended).  On a request whose form data can be read, when
    validation of the shop parameter fails -- the shop is missing or
    empty, it begins with [http://] or [https://], or the sanitizer
    refuses it -- [login] completes normally with a [LoginError]; it does
    not throw. *)
Theorem login_validation_failure_returns_error
        (req : Request) (fd : FormData) (w : W) :
  request_formData req = Fulfilled fd ->
  validation_fails params (select_shop fd (request_url req)) w ->
  (exists e : LoginError, completion (login params req w) = Normal e) /\
  (forall t : Thrown, completion (login params req w) <> Throw t).
Proof.
  intros Hfd Hfail.
  assert (Hreturns : exists e : LoginError, completion (login params req w) = Normal e).
  { destruct Hfail as [Hmiss | [[s [Hshop Hweb]] | [s [Hshop Hrej]]]].
    - exists {| shop := MissingShop |}.
      now rewrite (login_missing params req w Hfd Hmiss).
    - exists {| shop := InvalidProtocol |}.
      apply web_scheme_startsWith_http in Hweb.
      now rewrite (login_protocol params req w Hfd Hshop Hweb).
    - destruct (truthy (JsString s)) eqn:Hs.
      + apply truthy_string in Hs.
        destruct (startsWith s "http") eqn:Hhttp.
        * exists {| shop := InvalidProtocol |}.
          now rewrite (login_protocol params req w Hfd Hshop Hhttp).
        * exists {| shop := InvalidShop |}.
          now rewrite (login_invalid params req w Hfd Hshop Hs Hhttp Hrej).
      + exists {| shop := MissingShop |}.
        rewrite <- Hshop in Hs.
        now rewrite (login_missing params req w Hfd Hs). }
  split; [exact Hreturns | ].
  destruct Hreturns as [e He]. intros t Ht. rewrite He in Ht. discriminate Ht.
Qed.

(** C2 (amended).  On a request whose form data can be read and whose
    selected shop parameter, from the form data or the query string,
    begins with [http://] or [https://], [login] returns
    [InvalidProtocol]. *)
Theorem login_rejects_web_url (req : Request) (fd : FormData) (w : W) :
  request_formData req = Fulfilled fd ->
  has_web_scheme (select_shop fd (request_url req)) ->
  completion (login params req w) = Normal {| shop := InvalidProtocol |}.
Proof.
  intros Hfd [s [Hshop Hweb]].
  apply web_scheme_startsWith_http in Hweb.
  now rewrite (login_protocol params req w Hfd Hshop Hweb).
Qed.

(** C3 (amended).  On a request whose form data can be read, when
    neither the form data nor the query string carries a shop value,
    [login] returns [MissingShop]; and on any request, when either one
    carries a shop value, [login] does not return [MissingShop]. *)
Theorem login_MissingShop_iff_no_shop (req : Request) (w : W) :
  (forall fd : FormData,
      request_formData req = Fulfilled fd ->
      ~ carries_shop (FormData_get fd "shop") ->
      ~ carries_shop (URLSearchParams_get (searchParams (request_url req)) "shop") ->
      completion (login params req w) = Normal {| shop := MissingShop |}) /\
  (carries_shop (URLSearchParams_get (searchParams (request_url req)) "shop") \/
   (exists fd : FormData,
       request_formData req = Fulfilled fd /\ carries_shop (FormData_get fd "shop")) ->
   completion (login params req w) <> Normal {| shop := MissingShop |}).
Proof.
  split.
  - intros fd Hfd Hform Hquery.
    apply (not_truthy_not_carries (FormData_get_defined fd "shop")) in Hform.
    apply (not_truthy_not_carries (URLSearchParams_get_defined _ "shop")) in Hquery.
    assert (Hm : truthy (select_shop fd (request_url req)) = false).
    { unfold select_shop. now rewrite Hform. }
    now rewrite (login_missing params req w Hfd Hm).
  - intros Hpresent Hrun.
    login_cases params req w; try discriminate Hrun.
    assert (Hform : truthy (FormData_get fd0 "shop") = false).
    { unfold select_shop in Hm0.
      destruct (truthy (FormData_get fd0 "shop")) eqn:E; [congruence | reflexivity]. }
    assert (Hquery : truthy (URLSearchParams_get (searchParams (request_url req)) "shop") = false).
    { unfold select_shop in Hm0. now rewrite Hform in Hm0. }
    apply (not_truthy_not_carries (FormData_get_defined fd0 "shop")) in Hform.
    apply (not_truthy_not_carries (URLSearchParams_get_defined _ "shop")) in Hquery.
    destruct Hpresent as [Hq | [fd' [Hfd' Hf]]]; [now apply Hquery | ].
    rewrite Hfd0 in Hfd'. injection Hfd' as <-. now apply Hform.
Qed.

(** C6 (amended).  On a request whose form data can be read, when every
    validation check passes and the redirect target is a value a
    [Location] header can carry, [login] redirects: it throws the 302
    response whose target is the configured auth path followed by
    "?shop=" and the sanitized shop. *)
Theorem login_redirects_to_auth_path
        (req : Request) (fd : FormData) (sanitized : string) (w : W) :
  request_formData req = Fulfilled fd ->
  validation_passes params (select_shop fd (request_url req)) w sanitized ->
  header_value_ok (path (auth (config params)) ++ "?shop=" ++ sanitized) = true ->
  exists r : Response,
    completion (login params req w) = Throw (ThrownResponse r) /\
    status r = 302 /\
    location r = path (auth (config params)) ++ "?shop=" ++ sanitized.
Proof.
  intros Hfd [s [Hshop [Hne [Hhttp [Hans Hsan]]]]] Hok.
  rewrite (login_redirect params req w Hfd Hshop Hne Hhttp Hans Hsan Hok).
  eexists. repeat split.
Qed.

(** C9 (amended).  On a request whose form data can be read, when every
    validation check passes [login] does not return: it throws the
    redirect response, or, when the redirect target is not a value a
    [Location] header can carry, the [TypeError] of [redirect].  So
    whenever [login] does return, the form data was read, one of its
    three checks fired, and the value is the error of that check. *)
Theorem login_returns_only_errors (req : Request) (w : W) :
  (forall (fd : FormData) (sanitized : string),
      request_formData req = Fulfilled fd ->
      validation_passes params (select_shop fd (request_url req)) w sanitized ->
      let target := path (auth (config params)) ++ "?shop=" ++ sanitized in
      (forall e : LoginError, completion (login params req w) <> Normal e) /\
      (header_value_ok target = true ->
       completion (login params req w) =
       Throw (ThrownResponse {| status := 302; location := target |})) /\
      (header_value_ok target = false ->
       exists err : JsError,
         completion (login params req w) = Throw (ThrownError err) /\
         error_name err = "TypeError")) /\
  (forall e : LoginError,
      completion (login params req w) = Normal e ->
      exists fd : FormData,
        request_formData req = Fulfilled fd /\
        let selected := select_shop fd (request_url req) in
        (e = {| shop := MissingShop |} /\ missing_shop selected) \/
        (e = {| shop := InvalidProtocol |} /\ has_protocol selected) \/
        (e = {| shop := InvalidShop |} /\ rejected_by_sanitizer params selected w)).
Proof.
  split.
  - intros fd sanitized Hfd [s [Hshop [Hne [Hhttp [Hans Hsan]]]]] target.
    destruct (header_value_ok target) eqn:Hok.
    + rewrite (login_redirect params req w Hfd Hshop Hne Hhttp Hans Hsan Hok).
      split; [intros e He; discriminate He | split; [reflexivity | discriminate]].
    + rewrite (login_redirect_refused params req w Hfd Hshop Hne Hhttp Hans Hsan Hok).
      split; [intros e He; discriminate He | split; [discriminate | ]].
      intros _. eexists. split; reflexivity.
  - intros e Hrun.
    login_cases params req w; try discriminate Hrun;
      injection Hrun as <-; exists fd0; (split; [exact Hfd0 | ]); cbv zeta.
    + left. now split.
    + right. left. split; [reflexivity | now exists s0].
    + right. right. split; [reflexivity | now exists s0].
Qed.

(** C10.  A `shop` form field holding the empty string is treated as
    absent: the shop is taken from the query string, the run is the run
    on the same request without form fields, and it is the query's shop
    that [login] normalises and hands to the sanitizer (or, with none in
    the query, [MissingShop] that it returns).  A non-empty `shop` form
    field is the shop whatever the query string holds: the run is the
    same for every query, and it is the form's shop that [login]
    normalises and hands to the sanitizer. *)
Theorem login_form_shop_precedence (fd : FormData) (url : URL) (w : W) :
  (FormData_get fd "shop" = JsString "" ->
   select_shop fd url = URLSearchParams_get (searchParams url) "shop" /\
   login params {| request_url := url; request_formData := Fulfilled fd |} w =
   login params {| request_url := url; request_formData := Fulfilled [] |} w /\
   (forall q : string,
       URLSearchParams_get (searchParams url) "shop" = JsString q ->
       q <> "" ->
       startsWith q "http" = false ->
       sanitize_calls
         (calls (login params {| request_url := url; request_formData := Fulfilled fd |} w))
       = [shopWithDot_of q]) /\
   (~ carries_shop (URLSearchParams_get (searchParams url) "shop") ->
    completion (login params {| request_url := url; request_formData := Fulfilled fd |} w)
    = Normal {| shop := MissingShop |})) /\
  (forall v : JsValue,
      FormData_get fd "shop" = v ->
      truthy v = true ->
      select_shop fd url = v /\
      (forall url' : URL,
          login params {| request_url := url; request_formData := Fulfilled fd |} w =
          login params {| request_url := url'; request_formData := Fulfilled fd |} w) /\
      (forall (s : string) (url' : URL),
          v = JsString s ->
          startsWith s "http" = false ->
          sanitize_calls
            (calls (login params {| request_url := url'; request_formData := Fulfilled fd |} w))
          = [shopWithDot_of s])).
Proof.
  assert (Hsanitized :
            forall (u : URL) (s : string),
              select_shop fd u = JsString s ->
              s <> "" ->
              startsWith s "http" = false ->
              sanitize_calls
                (calls (login params {| request_url := u; request_formData := Fulfilled fd |} w))
              = [shopWithDot_of s]).
  { intros u s Hsel Hne Hhttp.
    now apply (login_sanitizes params
                               {| request_url := u; request_formData := Fulfilled fd |}
                               w eq_refl Hsel). }
  split.
  - intros Hform.
    assert (Hsel : select_shop fd url = select_shop [] url).
    { unfold select_shop. now rewrite Hform. }
    split; [exact Hsel | split; [ | split]].
    + unfold login, bind, await, ret.
      cbn [request_formData request_url completion world calls app].
      now rewrite Hsel.
    + intros q Hq Hne Hhttp. apply Hsanitized; try assumption.
      now rewrite Hsel.
    + intros Hquery.
      apply (not_truthy_not_carries (URLSearchParams_get_defined _ "shop")) in Hquery.
      set (req := {| request_url := url; request_formData := Fulfilled fd |}).
      assert (Hm : truthy (select_shop fd (request_url req)) = false)
        by (cbn [request_url req]; rewrite Hsel; exact Hquery).
      now rewrite (login_missing params req w eq_refl Hm).
  - intros v Hform Hv.
    assert (Hsel : forall u : URL, select_shop fd u = v).
    { intros u. unfold select_shop. now rewrite Hform, Hv. }
    split; [apply Hsel | split].
    + intros url'.
      unfold login, bind, await, ret.
      cbn [request_formData request_url completion world calls app].
      now rewrite !Hsel.
    + intros s url' -> Hhttp. apply Hsanitized; [apply Hsel | | exact Hhttp].
      now apply truthy_string.
Qed.

End LoginProperties.

(* ================================================================== *)
(** * Properties of [registerWebhooks] *)
(* ================================================================== *)

Section WebhookProperties.

Context {W Json : Type}.
Variable JSON_stringify : Json -> Completion JsValue.
Variable params : BasicParams W Json.

Lemma error_log_count_app (cs cs' : list Call) :
  error_log_count (cs ++ cs') = error_log_count cs + error_log_count cs'.
Proof.
  unfold error_log_count. now rewrite filter_app, length_app.
Qed.

Lemma only_logs_ret : only_logs (ret tt : M W unit) 0.
Proof.
  intros w. cbn. auto.
Qed.

Lemma only_logs_seq (m k : M W unit) (n n' : nat) :
  only_logs m n -> only_logs k n' -> only_logs (bind m (fun _ => k)) (n + n').
Proof.
  intros Hm Hk w. unfold bind.
  destruct (Hm w) as [Hc [Hl He]]. rewrite Hc.
  destruct (Hk (world (m w))) as [Hc' [Hl' He']].
  cbn [completion world calls]. repeat split.
  - exact Hc'.
  - apply Forall_app. now split.
  - rewrite error_log_count_app. now rewrite He, He'.
Qed.

Lemma only_logs_forEach {A : Type} (callback : A -> M W unit) (count : A -> nat)
      (xs : list A) :
  (forall x : A, In x xs -> only_logs (callback x) (count x)) ->
  only_logs (forEach xs callback) (list_sum (map count xs)).
Proof.
  induction xs as [ | x xs IH]; intros Hcb; cbn [forEach map list_sum fold_right].
  - apply only_logs_ret.
  - apply only_logs_seq.
    + apply Hcb. now left.
    + apply IH. intros y Hy. apply Hcb. now right.
Qed.

(** Reporting a result only logs, provided a failed result can be
    serialised. *)
Lemma only_logs_topic_result (topic : string) (s : Session) (r : RegisterResult Json) :
  (success r = false -> serialisable JSON_stringify r) ->
  only_logs (log_topic_result JSON_stringify params topic s r)
            (if success r then 0 else 1).
Proof.
  intros Hser w. unfold log_topic_result.
  destruct (success r).
  - cbn. repeat split; repeat constructor.
  - destruct (Hser eq_refl) as [v Hv].
    unfold bind, lift. rewrite Hv. cbn. repeat split; repeat constructor.
Qed.

(** A loop returns only if each of its rounds can return. *)
Lemma forEach_returns {A : Type} (callback : A -> M W unit) (xs : list A) (w : W) :
  completion (forEach xs callback w) = Normal tt ->
  forall x : A, In x xs -> exists w' : W, completion (callback x w') = Normal tt.
Proof.
  revert w. induction xs as [ | x xs IH]; intros w Hrun y Hy; [destruct Hy | ].
  cbn [forEach] in Hrun. unfold bind in Hrun.
  destruct (completion (callback x w)) as [[] | t] eqn:Hx; [ | discriminate Hrun].
  destruct Hy as [<- | Hy]; [now exists w | ].
  cbn [completion] in Hrun. now apply (IH _ Hrun).
Qed.

Lemma topic_result_returns (topic : string) (s : Session) (r : RegisterResult Json) (w : W) :
  completion (log_topic_result JSON_stringify params topic s r w) = Normal tt ->
  success r = false -> serialisable JSON_stringify r.
Proof.
  unfold log_topic_result, serialisable. intros Hrun Hfailed. rewrite Hfailed in Hrun.
  unfold bind, lift in Hrun.
  destruct (JSON_stringify (result r)) as [v | t]; [now exists v | discriminate Hrun].
Qed.

Lemma failed_count (rs : list (RegisterResult Json)) :
  list_sum (map (fun r => if success r then 0 else 1) rs) =
  length (filter (fun r => negb (success r)) rs).
Proof.
  induction rs as [ | r rs IH]; [reflexivity | ].
  cbn [map list_sum fold_right filter].
  fold (list_sum (map (fun r0 : RegisterResult Json => if success r0 then 0 else 1) rs)).
  rewrite IH. now destruct (success r).
Qed.

Lemma failed_results_length (response : RegisterReturn Json) :
  list_sum (map (fun entry : string * list (RegisterResult Json) =>
                   length (filter (fun r => negb (success r)) (snd entry)))
                response) =
  length (failed_results response).
Proof.
  unfold failed_results, Object_entries.
  induction response as [ | [topic rs] response IH]; [reflexivity | ].
  cbn [map list_sum fold_right flat_map snd].
  rewrite length_app, length_map. now f_equal.
Qed.

Lemma in_failed_results (response : RegisterReturn Json) (topic : string)
      (rs : list (RegisterResult Json)) (r : RegisterResult Json) :
  In (topic, rs) response -> In r rs -> success r = false ->
  In (topic, r) (failed_results response).
Proof.
  intros Hentry Hr Hfailed. unfold failed_results, Object_entries.
  apply in_flat_map. exists (topic, rs). split; [exact Hentry | ].
  apply in_map. apply filter_In. split; [exact Hr | now rewrite Hfailed].
Qed.

Lemma logger_calls_do_not_register (cs : list Call) :
  Forall (fun c => is_logger_call c = true) cs -> register_calls cs = [].
Proof.
  induction 1 as [ | c cs Hc _ IH]; [reflexivity | ].
  destruct c; try discriminate Hc. exact IH.
Qed.

Lemma logger_calls_do_not_sanitize (cs : list Call) :
  Forall (fun c => is_logger_call c = true) cs -> sanitize_calls cs = [].
Proof.
  induction 1 as [ | c cs Hc _ IH]; [reflexivity | ].
  destruct c; try discriminate Hc. exact IH.
Qed.

(** However a loop of reports completes, it has called the logger only,
    and has done to the world what those calls do. *)
Lemma calls_logger_only_forEach {A : Type} (callback : A -> M W unit) (xs : list A) :
  (forall x : A, calls_logger_only (callback x)) ->
  calls_logger_only (forEach xs callback).
Proof.
  intros Hcb. induction xs as [ | x xs IH]; intros w; cbn [forEach].
  - constructor.
  - unfold bind. destruct (completion (callback x w)); cbn [calls]; [ | apply Hcb].
    apply Forall_app. split; [apply Hcb | apply IH].
Qed.

Lemma calls_logger_only_topic_result (topic : string) (s : Session)
      (r : RegisterResult Json) :
  calls_logger_only (log_topic_result JSON_stringify params topic s r).
Proof.
  intros w. unfold log_topic_result. destruct (success r).
  - cbn. repeat constructor.
  - unfold bind, lift. destruct (JSON_stringify (result r)); cbn; repeat constructor.
Qed.

Lemma replay_app (cs cs' : list Call) (w : W) :
  replay params (cs ++ cs') w = replay params cs' (replay params cs w).
Proof.
  unfold replay. apply fold_left_app.
Qed.

Lemma replayable_forEach {A : Type} (callback : A -> M W unit) (xs : list A) :
  (forall x : A, replayable params (callback x)) ->
  replayable params (forEach xs callback).
Proof.
  intros Hcb. induction xs as [ | x xs IH]; intros w; cbn [forEach].
  - reflexivity.
  - unfold bind. destruct (completion (callback x w)); cbn [world calls]; [ | apply Hcb].
    now rewrite replay_app, <- (Hcb x w), <- IH.
Qed.

Lemma replayable_topic_result (topic : string) (s : Session) (r : RegisterResult Json) :
  replayable params (log_topic_result JSON_stringify params topic s r).
Proof.
  intros w. unfold log_topic_result. destruct (success r); [reflexivity | ].
  unfold bind, lift. now destruct (JSON_stringify (result r)).
Qed.

Lemma only_logs_response (s : Session) (response : RegisterReturn Json) :
  (forall (topic : string) (r : RegisterResult Json),
      In (topic, r) (failed_results response) -> serialisable JSON_stringify r) ->
  only_logs (report_response JSON_stringify params s response) (length (failed_results response)).
Proof.
  intros Hser. unfold report_response. rewrite <- failed_results_length.
  apply only_logs_forEach. intros [topic rs] Hentry. cbn [snd].
  rewrite <- failed_count.
  apply only_logs_forEach. intros r Hr. apply only_logs_topic_result.
  intros Hfailed. apply (Hser topic). now apply in_failed_results with rs.
Qed.

Lemma response_returns (s : Session) (response : RegisterReturn Json) (w : W) :
  completion (report_response JSON_stringify params s response w) = Normal tt ->
  forall (topic : string) (r : RegisterResult Json),
    In (topic, r) (failed_results response) -> serialisable JSON_stringify r.
Proof.
  unfold report_response, failed_results. intros Hrun topic r Hin.
  apply in_flat_map in Hin. destruct Hin as [[topic' rs] [Hentry Hin]].
  apply in_map_iff in Hin. destruct Hin as [r' [Heq Hr]].
  injection Heq as -> ->.
  apply filter_In in Hr. destruct Hr as [Hr Hfailed].
  apply negb_true_iff in Hfailed.
  destruct (forEach_returns _ _ _ Hrun (topic, rs) Hentry) as [w' Hinner].
  destruct (forEach_returns _ _ _ Hinner r Hr) as [w'' Hreport].
  now apply (topic_result_returns topic s r w'' Hreport).
Qed.

Lemma calls_logger_only_response (s : Session) (response : RegisterReturn Json) :
  calls_logger_only (report_response JSON_stringify params s response).
Proof.
  apply calls_logger_only_forEach. intros [topic rs].
  apply calls_logger_only_forEach. intros r. apply calls_logger_only_topic_result.
Qed.

Lemma replayable_response (s : Session) (response : RegisterReturn Json) :
  replayable params (report_response JSON_stringify params s response).
Proof.
  apply replayable_forEach. intros [topic rs].
  apply replayable_forEach. intros r. apply replayable_topic_result.
Qed.

(** The two ways the registration call can go. *)
Lemma registerWebhooks_fulfilled (options : RegisterWebhooksOptions) (w w' : W)
      (response : RegisterReturn Json) :
  webhooks_register (api params) (session options) w = (Fulfilled response, w') ->
  let reporting := report_response JSON_stringify params (session options) response w' in
  registerWebhooks JSON_stringify params options w =
  {| completion := match completion reporting with
                   | Normal _ => Normal response
                   | Throw t => Throw t
                   end;
     world := world reporting;
     calls := CallWebhooksRegister (session options) :: calls reporting |}.
Proof.
  intros Hreg reporting.
  unfold registerWebhooks, api_webhooks_register, bind, ret.
  rewrite Hreg. cbn [completion world calls].
  fold (report_response JSON_stringify params (session options) response). fold reporting.
  destruct (completion reporting); cbn [completion world calls app]; [ | reflexivity].
  now rewrite app_nil_r.
Qed.

Lemma registerWebhooks_rejected (options : RegisterWebhooksOptions) (w w' : W)
      (e : JsError) :
  webhooks_register (api params) (session options) w = (Rejected e, w') ->
  registerWebhooks JSON_stringify params options w =
  {| completion := Throw (ThrownError e);
     world := w';
     calls := [CallWebhooksRegister (session options)] |}.
Proof.
  intros Hreg.
  unfold registerWebhooks, api_webhooks_register, bind.
  now rewrite Hreg.
Qed.

(** C7 (amended).  [registerWebhooks] calls the API client's
    registration exactly once, with the session it was given.  When that
    call answers with a response and [JSON.stringify] returns for the
    [result] of every failed result, [registerWebhooks] returns this
    response, whatever the topic results report: everything it does
    besides is logging, with one error-level entry per failed result --
    no second registration call and no throw.  It returns only then: when
    the call is rejected, [registerWebhooks] is rejected alike and logs
    nothing, and a failed result that cannot be serialised makes it
    throw. *)
Theorem registerWebhooks_registers_once (options : RegisterWebhooksOptions) (w : W) :
  let run := registerWebhooks JSON_stringify params options w in
  let answer := fst (webhooks_register (api params) (session options) w) in
  register_calls (calls run) = [session options] /\
  (forall response : RegisterReturn Json,
      answer = Fulfilled response ->
      (forall (topic : string) (r : RegisterResult Json),
          In (topic, r) (failed_results response) -> serialisable JSON_stringify r) ->
      completion run = Normal response /\
      Forall (fun c => is_logger_call c = true) (tl (calls run)) /\
      error_log_count (calls run) = length (failed_results response)) /\
  (forall returned : RegisterReturn Json,
      completion run = Normal returned ->
      answer = Fulfilled returned /\
      forall (topic : string) (r : RegisterResult Json),
        In (topic, r) (failed_results returned) -> serialisable JSON_stringify r) /\
  (forall e : JsError,
      answer = Rejected e ->
      completion run = Throw (ThrownError e) /\
      calls run = [CallWebhooksRegister (session options)]).
Proof.
  destruct (webhooks_register (api params) (session options) w)
    as [[response | e] w'] eqn:Hreg; cbv zeta; cbn [fst].
  - rewrite (registerWebhooks_fulfilled options w Hreg).
    cbn [completion calls tl register_calls].
    split; [ | split; [ | split]].
    + f_equal. apply logger_calls_do_not_register, calls_logger_only_response.
    + intros response' Heq Hser. injection Heq as <-.
      destruct (only_logs_response (session options) response Hser w') as [Hc [Hl He]].
      rewrite Hc. split; [reflexivity | split; [exact Hl | exact He]].
    + intros returned Hrun.
      destruct (completion (report_response JSON_stringify params (session options)
                                            response w'))
        as [[] | t] eqn:Hc; [ | discriminate Hrun].
      injection Hrun as <-. split; [reflexivity | ].
      now apply (response_returns (session options) response w' Hc).
    + intros e Heq. discriminate Heq.
  - rewrite (registerWebhooks_rejected options w Hreg).
    cbn [completion calls register_calls].
    split; [reflexivity | split; [ | split]].
    + intros response Heq. discriminate Heq.
    + intros returned Hrun. discriminate Hrun.
    + intros e' Heq. injection Heq as <-. now split.
Qed.

End WebhookProperties.

(* ================================================================== *)
(** * Further properties of [login] *)
(* ================================================================== *)

Lemma prefix_append (s t : string) : String.prefix s (s ++ t) = true.
Proof.
  induction s as [ | c s IH]; [apply prefix_empty | ].
  cbn [append String.prefix].
  destruct (ascii_dec c c) as [_ | Hc]; [exact IH | now contradiction Hc].
Qed.

Lemma prefix_refl (s : string) : String.prefix s s = true.
Proof.
  induction s as [ | c s IH]; [reflexivity | ].
  cbn [String.prefix].
  destruct (ascii_dec c c) as [_ | Hc]; [exact IH | now contradiction Hc].
Qed.

(** A prefix of [s ++ t] either is a prefix of [s] or runs over into [t]. *)
Lemma prefix_append_split (p s t : string) :
  String.prefix p (s ++ t) = true ->
  String.prefix p s = true \/
  exists p' : string, p = s ++ p' /\ String.prefix p' t = true.
Proof.
  revert s. induction p as [ | a p IH]; intros s H.
  - left. apply prefix_empty.
  - destruct s as [ | b s].
    + right. exists (String a p). now split.
    + cbn [append String.prefix] in *.
      destruct (ascii_dec a b) as [<- | _]; [ | discriminate H].
      destruct (IH s H) as [Hp | [p' [-> Hp']]].
      * now left.
      * right. now exists p'.
Qed.

Lemma contains_dot_append (s t : string) :
  contains_dot t -> contains_dot (s ++ t).
Proof.
  unfold contains_dot. intros H.
  induction s as [ | c s IH]; [exact H | ].
  cbn [append list_ascii_of_string]. now right.
Qed.

Lemma shopWithDot_contains_dot (s : string) : contains_dot (shopWithDot_of s).
Proof.
  unfold shopWithDot_of. destruct (indexOf s ".") as [n | ] eqn:E.
  - destruct (in_dec ascii_dec "."%char (list_ascii_of_string s)) as [Hin | Hnin];
      [exact Hin | ].
    apply indexOf_dot_None in Hnin. congruence.
  - apply contains_dot_append. unfold contains_dot. cbn. tauto.
Qed.

Lemma shopWithDot_not_http (s : string) :
  startsWith s "http" = false -> startsWith (shopWithDot_of s) "http" = false.
Proof.
  intros Hs. unfold shopWithDot_of.
  destruct (indexOf s ".") as [n | ]; [exact Hs | ].
  unfold startsWith in *.
  destruct (String.prefix "http" (s ++ ".myshopify.com")) eqn:E; [exfalso | reflexivity].
  destruct (prefix_append_split _ _ _ E) as [Hp | [p' [Heq Hp']]]; [congruence | ].
  do 4 (destruct s as [ | c s]; cbn in Heq;
        [subst p'; vm_compute in Hp'; discriminate Hp' | injection Heq as <- Heq]).
  destruct s; [ | discriminate Heq].
  vm_compute in Hs. discriminate Hs.
Qed.

Section LoginExtras.

Context `{Runtime} {W Json : Type}.
Variable params : BasicParams W Json.

(** X1.  When the request body cannot be read as form data, [login]
    fails with that very error before it looks at anything else: no
    collaborator is called, the world is untouched and no [LoginError] is
    returned -- whatever shop the query string carries. *)
Theorem login_unreadable_body_rethrows (req : Request) (e : JsError) (w : W) :
  request_formData req = Rejected e ->
  completion (login params req w) = Throw (ThrownError e) /\
  calls (login params req w) = [] /\
  world (login params req w) = w.
Proof.
  intros Hfd. now rewrite (login_unreadable params req w Hfd).
Qed.

(** X2.  When the form's `shop` field is a file, it is truthy and so is
    preferred to the query string; [login] then throws a [TypeError]
    (a file has no [startsWith]) instead of returning a [LoginError], and
    calls no collaborator. *)
Theorem login_file_shop_throws (req : Request) (fd : FormData) (f : File) (w : W) :
  request_formData req = Fulfilled fd ->
  FormData_get fd "shop" = JsFile f ->
  (exists err : JsError,
      completion (login params req w) = Throw (ThrownError err) /\
      error_name err = "TypeError") /\
  calls (login params req w) = [].
Proof.
  intros Hfd Hform.
  assert (Hsel : select_shop fd (request_url req) = JsFile f).
  { unfold select_shop. now rewrite Hform. }
  rewrite (login_file params req w Hfd Hsel). split; [ | reflexivity].
  now exists (TypeError "shop.startsWith is not a function").
Qed.

(** X3.  [login] redirects only to what the sanitizer returned: whenever
    it throws a response, the form data was readable, every check passed,
    and the response is the one [redirect] returned for the auth path
    with "?shop=" and the sanitizer's non-empty answer for the normalised
    shop. *)
Theorem login_redirect_only_to_sanitized (req : Request) (w : W) (r : Response) :
  completion (login params req w) = Throw (ThrownResponse r) ->
  exists (fd : FormData) (sanitized : string),
    request_formData req = Fulfilled fd /\
    validation_passes params (select_shop fd (request_url req)) w sanitized /\
    redirect (path (auth (config params)) ++ "?shop=" ++ sanitized) = Normal r.
Proof.
  intros Hrun.
  login_cases params req w; try discriminate Hrun.
  injection Hrun as <-.
  exists fd0, sanitized0. split; [exact Hfd0 | split].
  - exists s0. auto.
  - unfold redirect. now rewrite Hok0.
Qed.

(** X4.  What [login] asks of the API client: it never registers
    webhooks; it asks the sanitizer at most once; it does not ask it at
    all when it answers [MissingShop] or [InvalidProtocol]; and when it
    throws an error rather than a response, either it has called
    nothing, or the error comes from [redirect], after the one call to
    the sanitizer and the info entry. *)
Theorem login_call_discipline (req : Request) (w : W) :
  register_calls (calls (login params req w)) = [] /\
  length (sanitize_calls (calls (login params req w))) <= 1 /\
  (forall e : LoginError,
      completion (login params req w) = Normal e ->
      shop e <> InvalidShop ->
      sanitize_calls (calls (login params req w)) = []) /\
  (forall err : JsError,
      completion (login params req w) = Throw (ThrownError err) ->
      calls (login params req w) = [] \/
      exists (arg message : string) (context : LogContext),
        calls (login params req w) =
        [CallSanitizeShop arg; CallLogger LogInfo message context]).
Proof.
  login_cases params req w; cbn; repeat split; auto.
  - intros err Herr. discriminate Herr.
  - intros err Herr. discriminate Herr.
  - intros e Hrun Hn. injection Hrun as <-. now contradiction Hn.
  - intros err Herr. discriminate Herr.
  - intros e Hrun. discriminate Hrun.
  - intros err Herr. discriminate Herr.
  - intros e Hrun. discriminate Hrun.
  - intros err _. right. eauto.
Qed.

(** X5.  What [login] logs: never at the error level; exactly one debug
    entry when it returns a [LoginError]; and exactly one info entry when
    it redirects, whose message names the very location of the thrown
    response. *)
Theorem login_logs_once (req : Request) (w : W) :
  error_log_count (calls (login params req w)) = 0 /\
  (forall e : LoginError,
      completion (login params req w) = Normal e ->
      exists (message : string) (context : LogContext),
        filter is_logger_call (calls (login params req w)) =
        [CallLogger LogDebug message context]) /\
  (forall r : Response,
      completion (login params req w) = Throw (ThrownResponse r) ->
      exists context : LogContext,
        filter is_logger_call (calls (login params req w)) =
        [CallLogger LogInfo ("Redirecting login request to " ++ location r) context]).
Proof.
  login_cases params req w; cbn;
    (split; [reflexivity | split; intros x Hx; try discriminate Hx; eauto]).
  injection Hx as <-. cbn. eauto.
Qed.

(** X6.  The normalisation of lines 26-27 only ever appends: its result
    begins with the shop it was given, always contains a '.', and is left
    alone when normalised again. *)
Theorem shopWithDot_of_normal_form (s : string) :
  startsWith (shopWithDot_of s) s = true /\
  contains_dot (shopWithDot_of s) /\
  shopWithDot_of (shopWithDot_of s) = shopWithDot_of s.
Proof.
  split; [ | split].
  - unfold startsWith, shopWithDot_of. destruct (indexOf s ".").
    + apply prefix_refl.
    + apply prefix_append.
  - apply shopWithDot_contains_dot.
  - apply shopWithDot_dotted. apply shopWithDot_contains_dot.
Qed.

(** X7.  Whatever [login] hands to the sanitizer contains a '.', is not
    empty and does not start with "http". *)
Theorem login_sanitizer_argument (req : Request) (w : W) (arg : string) :
  In arg (sanitize_calls (calls (login params req w))) ->
  contains_dot arg /\ arg <> "" /\ startsWith arg "http" = false.
Proof.
  intros Hin.
  assert (Hshape : exists s : string,
             arg = shopWithDot_of s /\ startsWith s "http" = false).
  { login_cases params req w; cbn in Hin; try (now destruct Hin).
    all: destruct Hin as [<- | []]; now exists s0. }
  destruct Hshape as [s [-> Hs]].
  split; [apply shopWithDot_contains_dot | split].
  - intros Hempty. pose proof (shopWithDot_contains_dot s) as Hdot.
    rewrite Hempty in Hdot. destruct Hdot.
  - now apply shopWithDot_not_http.
Qed.

(** X8.  Of a request with readable form data, [login] reads only what
    [formData.get('shop')] and [searchParams.get('shop')] answer: two
    requests that agree on these two values run alike, whatever else
    their forms, queries and paths hold. *)
Theorem login_reads_only_shop (req1 req2 : Request) (fd1 fd2 : FormData) (w : W) :
  request_formData req1 = Fulfilled fd1 ->
  request_formData req2 = Fulfilled fd2 ->
  FormData_get fd1 "shop" = FormData_get fd2 "shop" ->
  URLSearchParams_get (searchParams (request_url req1)) "shop" =
  URLSearchParams_get (searchParams (request_url req2)) "shop" ->
  login params req1 w = login params req2 w.
Proof.
  intros Hfd1 Hfd2 Hform Hquery.
  assert (Hsel : select_shop fd1 (request_url req1) = select_shop fd2 (request_url req2)).
  { unfold select_shop. now rewrite Hform, Hquery. }
  unfold login, bind, await, ret. rewrite Hfd1, Hfd2.
  cbn [completion world calls app]. now rewrite Hsel.
Qed.

(** X12.  On a request with readable form data whose selected shop is a
    non-empty string that does not start with "http", [login] asks the
    sanitizer exactly once: about the shop with ".myshopify.com" appended
    when the shop contains no '.', and about the shop as it is when it
    contains one. *)
Theorem login_normalizes_bare_shop
        (req : Request) (fd : FormData) (s : string) (w : W) :
  request_formData req = Fulfilled fd ->
  select_shop fd (request_url req) = JsString s ->
  s <> "" ->
  startsWith s "http" = false ->
  (~ contains_dot s ->
   sanitize_calls (calls (login params req w)) = [s ++ ".myshopify.com"]) /\
  (contains_dot s ->
   sanitize_calls (calls (login params req w)) = [s]).
Proof.
  intros Hfd Hshop Hne Hhttp.
  pose proof (login_sanitizes params req w Hfd Hshop Hne Hhttp) as Hcalls.
  split; intros Hdot; rewrite Hcalls.
  - now rewrite shopWithDot_bare.
  - now rewrite shopWithDot_dotted.
Qed.

(** X13.  On a request with readable form data whose selected shop is a
    non-empty string that does not start with "http", when the sanitizer
    answers [null] or the empty string for the normalised shop, [login]
    returns [InvalidShop] after that one call and one debug entry that
    carries the normalised shop. *)
Theorem login_refused_shop_is_InvalidShop
        (req : Request) (fd : FormData) (s : string) (w : W) :
  request_formData req = Fulfilled fd ->
  select_shop fd (request_url req) = JsString s ->
  s <> "" ->
  startsWith s "http" = false ->
  sanitizer_answer params (shopWithDot_of s) w = None \/
  sanitizer_answer params (shopWithDot_of s) w = Some "" ->
  completion (login params req w) = Normal {| shop := InvalidShop |} /\
  calls (login params req w) =
  [CallSanitizeShop (shopWithDot_of s);
   CallLogger LogDebug "Invalid shop parameter" [("shop", JsString (shopWithDot_of s))]].
Proof.
  intros Hfd Hshop Hne Hhttp Hans.
  rewrite (login_invalid params req w Hfd Hshop Hne Hhttp); [now split | ].
  now destruct Hans as [-> | ->].
Qed.

End LoginExtras.

(* ================================================================== *)
(** * Further properties of [registerWebhooks] *)
(* ================================================================== *)

Section WebhookExtras.

Context {W Json : Type}.
Variable params : BasicParams W Json.

(** The summaries of the calls of a loop are those of its rounds. *)
Lemma forEach_summaries {A : Type} (callback : A -> M W unit)
      (rounds : A -> list (option (LogLevel * JsValue * JsValue))) (xs : list A) :
  (forall (x : A) (w : W),
      In x xs ->
      completion (callback x w) = Normal tt /\
      map log_summary (calls (callback x w)) = rounds x) ->
  forall w : W,
    completion (forEach xs callback w) = Normal tt /\
    map log_summary (calls (forEach xs callback w)) = flat_map rounds xs.
Proof.
  induction xs as [ | x xs IH]; intros Hcb w; cbn [forEach flat_map].
  - now cbn.
  - unfold bind. destruct (Hcb x w (or_introl eq_refl)) as [Hc Hs]. rewrite Hc.
    destruct (IH (fun y w' Hy => Hcb y w' (or_intror Hy)) (world (callback x w)))
      as [Hc' Hs'].
    cbn [completion world calls]. split; [exact Hc' | ].
    now rewrite map_app, Hs, Hs'.
Qed.

Lemma flat_map_singleton {A B : Type} (f : A -> B) (xs : list A) :
  flat_map (fun x => [f x]) xs = map f xs.
Proof.
  induction xs as [ | x xs IH]; [reflexivity | ]. cbn. now rewrite IH.
Qed.

(** Loops whose callbacks agree on the elements they visit run alike. *)
Lemma forEach_agree {A : Type} (callback callback' : A -> M W unit) (xs : list A) :
  (forall (x : A) (w : W), In x xs -> callback x w = callback' x w) ->
  forall w : W, forEach xs callback w = forEach xs callback' w.
Proof.
  induction xs as [ | x xs IH]; intros Hcb w; cbn [forEach]; [reflexivity | ].
  unfold bind. rewrite (Hcb x w (or_introl eq_refl)).
  destruct (completion (callback' x w)); [ | reflexivity].
  rewrite IH; [reflexivity | ].
  intros y w' Hy. apply Hcb. now right.
Qed.

Section WithStringify.

Variable JSON_stringify : Json -> Completion JsValue.

Lemma summaries_response (s : Session) (response : RegisterReturn Json) (w : W) :
  (forall (topic : string) (r : RegisterResult Json),
      In (topic, r) (failed_results response) -> serialisable JSON_stringify r) ->
  map log_summary (calls (report_response JSON_stringify params s response w))
  = result_summaries s response.
Proof.
  intros Hser. unfold result_summaries, report_response.
  apply (forEach_summaries
           (fun entry : string * list (RegisterResult Json) =>
              let '(topic, topicResults) := entry in
              forEach topicResults (log_topic_result JSON_stringify params topic s))
           (fun entry : string * list (RegisterResult Json) =>
              let '(topic, topicResults) := entry in
              map (fun r => Some (if success r then LogDebug else LogError,
                                  JsString topic, JsString (session_shop s)))
                  topicResults)).
  intros [topic rs] w' Hentry.
  rewrite <- (flat_map_singleton
                (fun r : RegisterResult Json =>
                   Some (if success r then LogDebug else LogError,
                         JsString topic, JsString (session_shop s))) rs).
  apply forEach_summaries. intros r w'' Hr.
  unfold log_topic_result. destruct (success r) eqn:Hsucc; [now cbn | ].
  destruct (Hser topic r (in_failed_results response topic rs r Hentry Hr Hsucc))
    as [v Hv].
  unfold bind, lift. rewrite Hv. now cbn.
Qed.

(** X9.  When registration answers with a response and [JSON.stringify]
    returns for the [result] of every failed result, what
    [registerWebhooks] logs after the call is one entry per result, in
    the order of the response: at debug level for a success and at error
    level for a failure, each with the result's topic and the session's
    shop.  A topic with no results, and an empty response, log nothing. *)
Theorem registerWebhooks_logs_each_result
        (options : RegisterWebhooksOptions) (w : W) (response : RegisterReturn Json) :
  fst (webhooks_register (api params) (session options) w) = Fulfilled response ->
  (forall (topic : string) (r : RegisterResult Json),
      In (topic, r) (failed_results response) -> serialisable JSON_stringify r) ->
  map log_summary (tl (calls (registerWebhooks JSON_stringify params options w)))
  = result_summaries (session options) response.
Proof.
  intros Hans Hser.
  destruct (webhooks_register (api params) (session options) w) as [p w'] eqn:Hreg.
  cbn [fst] in Hans. subst p.
  rewrite (registerWebhooks_fulfilled JSON_stringify params options w Hreg).
  cbn [calls tl]. now apply summaries_response.
Qed.

(** X10.  The registration call is the first thing [registerWebhooks]
    does; it never asks the sanitizer; and all it does to the world is
    what its recorded calls to the API client and the logger do. *)
Theorem registerWebhooks_effects (options : RegisterWebhooksOptions) (w : W) :
  hd_error (calls (registerWebhooks JSON_stringify params options w))
  = Some (CallWebhooksRegister (session options)) /\
  sanitize_calls (calls (registerWebhooks JSON_stringify params options w)) = [] /\
  world (registerWebhooks JSON_stringify params options w)
  = replay params (calls (registerWebhooks JSON_stringify params options w)) w.
Proof.
  destruct (webhooks_register (api params) (session options) w)
    as [[response | e] w'] eqn:Hreg.
  - rewrite (registerWebhooks_fulfilled JSON_stringify params options w Hreg).
    cbn [calls world hd_error sanitize_calls].
    split; [reflexivity | split].
    + apply logger_calls_do_not_sanitize, calls_logger_only_response.
    + rewrite (replayable_response JSON_stringify params (session options) response w').
      unfold replay at 2. cbn [fold_left call_effect].
      now rewrite Hreg.
  - rewrite (registerWebhooks_rejected JSON_stringify params options w Hreg).
    cbn [calls world hd_error sanitize_calls].
    split; [reflexivity | split; [reflexivity | ]].
    unfold replay. cbn [fold_left call_effect]. now rewrite Hreg.
Qed.

End WithStringify.

(** X11.  Only the results that report failure are serialised: two
    serialisers that agree on the [result] of every failed result of the
    response give the same run, whatever they make of the others. *)
Theorem registerWebhooks_serialises_failures_only
        (stringify stringify' : Json -> Completion JsValue)
        (options : RegisterWebhooksOptions) (w : W) :
  (forall (response : RegisterReturn Json) (topic : string) (r : RegisterResult Json),
      fst (webhooks_register (api params) (session options) w) = Fulfilled response ->
      In (topic, r) (failed_results response) ->
      stringify (result r) = stringify' (result r)) ->
  registerWebhooks stringify params options w =
  registerWebhooks stringify' params options w.
Proof.
  intros Hagree.
  destruct (webhooks_register (api params) (session options) w)
    as [[response | e] w'] eqn:Hreg.
  - rewrite !(registerWebhooks_fulfilled _ params options w Hreg).
    cbn [fst] in Hagree. specialize (Hagree response).
    assert (Hloop : report_response stringify params (session options) response w'
                    = report_response stringify' params (session options) response w').
    { unfold report_response.
      apply forEach_agree. intros [topic rs] w1 Hentry.
      apply forEach_agree. intros r w2 Hr.
      unfold log_topic_result. destruct (success r) eqn:Hsucc; [reflexivity | ].
      now rewrite (Hagree topic r eq_refl
                          (in_failed_results response topic rs r Hentry Hr Hsucc)). }
    now rewrite Hloop.
  - now rewrite !(registerWebhooks_rejected _ params options w Hreg).
Qed.

End WebhookExtras.

(* ================================================================== *)
(** * The properties on concrete requests *)
(* ================================================================== *)

#[local] Existing Instance test_runtime.

Lemma not_carries_null : ~ carries_shop JsNull.
Proof.
  intros [H _]. now apply H.
Qed.

Lemma not_carries_empty : ~ carries_shop (JsString "").
Proof.
  intros [_ H]. now apply H.
Qed.

(** C1, as the specification words it, fails.  A GET without a form body
    and without a shop is a request with a missing shop, yet [login]
    throws instead of returning [MissingShop]; and a shop with the scheme
    [ftp://] that the sanitizer lets through is redirected, not answered
    with a [LoginError]. *)
Lemma login_missing_shop_without_body_throws :
  URLSearchParams_get (searchParams (request_url (unreadable_request []))) "shop" = JsNull /\
  completion (login test_params (unreadable_request []) [])
  = Throw (ThrownError {| error_name := "TypeError";
                          error_message := "Could not parse content as FormData." |}) /\
  includes_url_scheme "ftp://shop.myshopify.com" = true /\
  completion (login permissive_params
                    (post_request [] [("shop", "ftp://shop.myshopify.com")]) [])
  = Throw (ThrownResponse {| status := 302;
                             location := "/auth?shop=ftp://shop.myshopify.com" |}).
Proof.
  repeat split.
Defined.

(** A POST with an empty `shop` field and no query: validation fails, and
    [login] returns. *)
Lemma login_validation_failure_returns_error_witness :
  (exists e : LoginError,
      completion (login test_params (post_request [("shop", EntryString "")] []) []) = Normal e) /\
  (forall t : Thrown,
      completion (login test_params (post_request [("shop", EntryString "")] []) []) <> Throw t).
Proof.
  apply (@login_validation_failure_returns_error
           _ _ _ test_params (post_request [("shop", EntryString "")] [])
           [("shop", EntryString "")] []).
  - reflexivity.
  - left. reflexivity.
Defined.

(** C2, as the specification words it, fails: a shop that carries the
    scheme [ftp://], or [HTTPS://] in capitals, is not rejected with
    [InvalidProtocol] -- it reaches the sanitizer and is rejected there;
    and without a form body even [https://] is not: [login] throws. *)
Lemma login_ftp_scheme_is_not_InvalidProtocol :
  includes_url_scheme "ftp://shop.myshopify.com" = true /\
  completion (login test_params (post_request [] [("shop", "ftp://shop.myshopify.com")]) [])
  = Normal {| shop := InvalidShop |} /\
  completion (login test_params (post_request [] [("shop", "ftp://shop.myshopify.com")]) [])
  <> Normal {| shop := InvalidProtocol |} /\
  includes_url_scheme "HTTPS://shop.myshopify.com" = true /\
  completion (login test_params (post_request [] [("shop", "HTTPS://shop.myshopify.com")]) [])
  = Normal {| shop := InvalidShop |} /\
  includes_url_scheme "https://shop.myshopify.com" = true /\
  completion (login test_params
                    (unreadable_request [("shop", "https://shop.myshopify.com")]) [])
  = Throw (ThrownError {| error_name := "TypeError";
                          error_message := "Could not parse content as FormData." |}).
Proof.
  repeat split. discriminate.
Defined.

Lemma login_rejects_web_url_witness :
  completion (login test_params
                    (post_request [("shop", EntryString "https://shop1.myshopify.com")] []) [])
  = Normal {| shop := InvalidProtocol |}.
Proof.
  apply (@login_rejects_web_url
           _ _ _ test_params
           (post_request [("shop", EntryString "https://shop1.myshopify.com")] [])
           [("shop", EntryString "https://shop1.myshopify.com")] []).
  - reflexivity.
  - exists "https://shop1.myshopify.com". split; [reflexivity | right; reflexivity].
Defined.

(** C3, as the specification words it, fails: on a GET without a form
    body, neither the form data nor the query string carries a shop, yet
    [login] throws instead of returning [MissingShop]. *)
Lemma login_no_shop_without_body_is_not_MissingShop :
  URLSearchParams_get (searchParams (request_url (unreadable_request [("host", "abc")])))
                      "shop" = JsNull /\
  completion (login test_params (unreadable_request [("host", "abc")]) [])
  = Throw (ThrownError {| error_name := "TypeError";
                          error_message := "Could not parse content as FormData." |}) /\
  completion (login test_params (unreadable_request [("host", "abc")]) [])
  <> Normal {| shop := MissingShop |}.
Proof.
  repeat split. discriminate.
Defined.

Lemma login_MissingShop_iff_no_shop_witness :
  completion (login test_params (post_request [("shop", EntryString "")] [("host", "abc")]) [])
  = Normal {| shop := MissingShop |} /\
  completion (login test_params (post_request [] [("shop", "shop1")]) [])
  <> Normal {| shop := MissingShop |}.
Proof.
  split.
  - apply (proj1 (@login_MissingShop_iff_no_shop
                    _ _ _ test_params
                    (post_request [("shop", EntryString "")] [("host", "abc")]) [])
                 [("shop", EntryString "")]).
    + reflexivity.
    + exact not_carries_empty.
    + exact not_carries_null.
  - apply (proj2 (@login_MissingShop_iff_no_shop
                    _ _ _ test_params (post_request [] [("shop", "shop1")]) [])).
    left. split; discriminate.
Defined.

(** C4.  The code at the bare name [httpstore]: the name starts no URL
    scheme and contains no dot, so it is to be completed to
    [httpstore.myshopify.com] and handed to the sanitizer; [login]
    instead logs that the shop "contained protocol", returns
    [InvalidProtocol] and never asks the sanitizer. *)
Lemma login_http_prefixed_name_is_not_sanitized :
  includes_url_scheme "httpstore" = false /\
  ~ contains_dot "httpstore" /\
  sanitize_calls (calls (login test_params (post_request [("shop", EntryString "httpstore")] []) []))
  = [] /\
  completion (login test_params (post_request [("shop", EntryString "httpstore")] []) [])
  = Normal {| shop := InvalidProtocol |} /\
  calls (login test_params (post_request [("shop", EntryString "httpstore")] []) [])
  = [CallLogger LogDebug "Shop parameter contained protocol"
                [("shop", JsString "httpstore")]] /\
  fst (test_sanitizeShop "httpstore.myshopify.com" []) = Some "httpstore.myshopify.com".
Proof.
  split; [reflexivity | split; [ | repeat split]].
  apply indexOf_dot_None. reflexivity.
Defined.

(** C5.  The code at [httpshop.example.com]: the name carries no scheme
    and the sanitizer has no value for it, so the error is to be
    [InvalidShop]; [login] instead logs that the shop "contained
    protocol" and returns [InvalidProtocol]. *)
Lemma login_http_prefixed_name_is_not_InvalidShop :
  includes_url_scheme "httpshop.example.com" = false /\
  sanitizer_answer test_params (shopWithDot_of "httpshop.example.com") [] = None /\
  completion (login test_params (post_request [] [("shop", "httpshop.example.com")]) [])
  = Normal {| shop := InvalidProtocol |} /\
  completion (login test_params (post_request [] [("shop", "httpshop.example.com")]) [])
  <> Normal {| shop := InvalidShop |} /\
  calls (login test_params (post_request [] [("shop", "httpshop.example.com")]) [])
  = [CallLogger LogDebug "Shop parameter contained protocol"
                [("shop", JsString "httpshop.example.com")]].
Proof.
  repeat split. discriminate.
Defined.

(** C6, as the specification words it, fails.  With an auth path that
    holds a line feed every check passes on the shop [shop1], yet
    [redirect] throws and no response leaves [login]; and a GET without a
    form body whose query names the good shop [shop1] is not redirected
    either. *)
Lemma login_valid_shop_without_redirect :
  validation_passes broken_path_params
                    (select_shop [("shop", EntryString "shop1")]
                                 (request_url (post_request [("shop", EntryString "shop1")] [])))
                    [] "shop1.myshopify.com" /\
  completion (login broken_path_params (post_request [("shop", EntryString "shop1")] []) [])
  = Throw (ThrownError (TypeError "Invalid header value")) /\
  completion (login test_params (unreadable_request [("shop", "shop1")]) [])
  = Throw (ThrownError {| error_name := "TypeError";
                          error_message := "Could not parse content as FormData." |}).
Proof.
  split; [ | split; reflexivity].
  exists "shop1". repeat split; try reflexivity; discriminate.
Defined.

Lemma login_redirects_to_auth_path_witness :
  exists r : Response,
    completion (login test_params (post_request [("shop", EntryString "shop1")] []) [])
    = Throw (ThrownResponse r) /\
    status r = 302 /\
    location r = "/auth" ++ "?shop=" ++ "shop1.myshopify.com".
Proof.
  apply (@login_redirects_to_auth_path
           _ _ _ test_params (post_request [("shop", EntryString "shop1")] [])
           [("shop", EntryString "shop1")] "shop1.myshopify.com" []).
  - reflexivity.
  - exists "shop1". repeat split; try reflexivity; discriminate.
  - reflexivity.
Defined.

(** C7, as the specification words it, fails.  The registration call is
    fulfilled with a response whose second result failed with a [result]
    that cannot be serialised: [registerWebhooks] throws the [TypeError]
    of [JSON.stringify] instead of returning the response, and the
    failures are not logged. *)
Lemma registerWebhooks_unserialisable_failure_throws :
  fst (test_register cyclic_session []) = Fulfilled cyclic_response /\
  completion (registerWebhooks test_stringify test_params {| session := cyclic_session |} [])
  = Throw (ThrownError (TypeError "Converting circular structure to JSON")) /\
  length (failed_results cyclic_response) = 2 /\
  error_log_count
    (calls (registerWebhooks test_stringify test_params {| session := cyclic_session |} []))
  = 0.
Proof.
  repeat split.
Defined.

(** The response of the test API client has one failed result, which can
    be serialised; it comes back unchanged, after one registration call
    and one error entry. *)
Lemma registerWebhooks_registers_once_witness :
  register_calls
    (calls (registerWebhooks test_stringify test_params {| session := test_session |} []))
  = [test_session] /\
  completion (registerWebhooks test_stringify test_params {| session := test_session |} [])
  = Normal test_response /\
  error_log_count
    (calls (registerWebhooks test_stringify test_params {| session := test_session |} []))
  = 1.
Proof.
  destruct (@registerWebhooks_registers_once
              _ _ test_stringify test_params {| session := test_session |} [])
    as [Honce [Hresponse _]].
  assert (Hser : forall (topic : string) (r : RegisterResult string),
             In (topic, r) (failed_results test_response) ->
             serialisable test_stringify r).
  { intros topic r [Heq | []]. injection Heq as _ <-. now exists (JsString "{errors}"). }
  destruct (Hresponse test_response eq_refl Hser) as [Hreturn [_ Hcount]].
  split; [exact Honce | split; [exact Hreturn | exact Hcount]].
Defined.

(** C9, as the specification words it, fails: with an auth path that
    holds a line feed every check passes on the shop [shop1], and what
    [login] throws is the [TypeError] of [redirect], not a response. *)
Lemma login_refused_target_throws_TypeError :
  validation_passes broken_path_params
                    (select_shop [] (request_url (post_request [] [("shop", "shop1")])))
                    [] "shop1.myshopify.com" /\
  header_value_ok (path (auth (config broken_path_params)) ++ "?shop=" ++ "shop1.myshopify.com")
  = false /\
  completion (login broken_path_params (post_request [] [("shop", "shop1")]) [])
  = Throw (ThrownError (TypeError "Invalid header value")).
Proof.
  split; [ | split; reflexivity].
  exists "shop1". repeat split; try reflexivity; discriminate.
Defined.

Lemma login_returns_only_errors_witness :
  completion (login test_params (post_request [("shop", EntryString "shop1")] []) [])
  = Throw (ThrownResponse {| status := 302;
                             location := "/auth" ++ "?shop=" ++ "shop1.myshopify.com" |}) /\
  (exists err : JsError,
      completion (login broken_path_params (post_request [] [("shop", "shop1")]) [])
      = Throw (ThrownError err) /\
      error_name err = "TypeError") /\
  (exists fd : FormData,
      request_formData (post_request [] [("shop", "shop1.example.com")]) = Fulfilled fd /\
      let selected :=
        select_shop fd (request_url (post_request [] [("shop", "shop1.example.com")])) in
      ({| shop := InvalidShop |} = {| shop := MissingShop |} /\ missing_shop selected) \/
      ({| shop := InvalidShop |} = {| shop := InvalidProtocol |} /\ has_protocol selected) \/
      ({| shop := InvalidShop |} = {| shop := InvalidShop |} /\
       rejected_by_sanitizer test_params selected [])).
Proof.
  split; [ | split].
  - assert (Hpass : validation_passes
                      test_params
                      (select_shop [("shop", EntryString "shop1")]
                                   (request_url (post_request [("shop", EntryString "shop1")] [])))
                      [] "shop1.myshopify.com").
    { exists "shop1". repeat split; try reflexivity; discriminate. }
    destruct (proj1 (@login_returns_only_errors
                       _ _ _ test_params
                       (post_request [("shop", EntryString "shop1")] []) [])
                    [("shop", EntryString "shop1")] "shop1.myshopify.com" eq_refl Hpass)
      as [_ [Hresponse _]].
    apply Hresponse. reflexivity.
  - assert (Hpass : validation_passes
                      broken_path_params
                      (select_shop [] (request_url (post_request [] [("shop", "shop1")])))
                      [] "shop1.myshopify.com").
    { exists "shop1". repeat split; try reflexivity; discriminate. }
    destruct (proj1 (@login_returns_only_errors
                       _ _ _ broken_path_params
                       (post_request [] [("shop", "shop1")]) [])
                    [] "shop1.myshopify.com" eq_refl Hpass)
      as [_ [_ Herror]].
    apply Herror. reflexivity.
  - apply (proj2 (@login_returns_only_errors
                    _ _ _ test_params (post_request [] [("shop", "shop1.example.com")]) [])
                 {| shop := InvalidShop |}).
    reflexivity.
Defined.

(** A form with an empty `shop` over a query that names [shop2], and a
    form that names [shop1] over the same query: the sanitizer is asked
    about [shop2] in the first run and about [shop1] in the second. *)
Lemma login_form_shop_precedence_witness :
  sanitize_calls
    (calls (login test_params
                  {| request_url := {| url_base := "/auth/login";
                                       searchParams := [("shop", "shop2")] |};
                     request_formData := Fulfilled [("shop", EntryString "")] |} []))
  = [shopWithDot_of "shop2"] /\
  sanitize_calls
    (calls (login test_params
                  {| request_url := {| url_base := "/auth/login";
                                       searchParams := [("shop", "shop2")] |};
                     request_formData := Fulfilled [("shop", EntryString "shop1")] |} []))
  = [shopWithDot_of "shop1"].
Proof.
  split.
  - apply (proj1 (proj2 (proj2 (proj1 (@login_form_shop_precedence
                                         _ _ _ test_params [("shop", EntryString "")]
                                         {| url_base := "/auth/login";
                                            searchParams := [("shop", "shop2")] |} [])
                                      eq_refl)))
                 "shop2").
    + reflexivity.
    + discriminate.
    + reflexivity.
  - apply (proj2 (proj2 (proj2 (@login_form_shop_precedence
                                  _ _ _ test_params [("shop", EntryString "shop1")]
                                  {| url_base := "/auth/login";
                                     searchParams := [("shop", "shop2")] |} [])
                               (JsString "shop1") eq_refl eq_refl))
                 "shop1"
                 {| url_base := "/auth/login"; searchParams := [("shop", "shop2")] |}).
    + reflexivity.
    + reflexivity.
Defined.

(** Two requests [login] throws on before any check: a GET whose body is
    not form data, and a multipart POST whose `shop` field is a file. *)
Example login_unreadable_body :
  completion (login test_params (unreadable_request [("shop", "shop1")]) [])
  = Throw (ThrownError {| error_name := "TypeError";
                          error_message := "Could not parse content as FormData." |}).
Proof.
  reflexivity.
Qed.

Example login_file_field :
  completion (login test_params
                    (post_request [("shop", EntryFile {| file_name := "shop.txt" |})] []) [])
  = Throw (ThrownError (TypeError "shop.startsWith is not a function")).
Proof.
  reflexivity.
Qed.

(* ================================================================== *)
(** * The further properties on concrete requests *)
(* ================================================================== *)

(** A GET to [/auth/login?shop=shop1] without a form body. *)
Lemma login_unreadable_body_rethrows_witness :
  completion (login test_params (unreadable_request [("shop", "shop1")]) [])
  = Throw (ThrownError {| error_name := "TypeError";
                          error_message := "Could not parse content as FormData." |}) /\
  calls (login test_params (unreadable_request [("shop", "shop1")]) []) = [] /\
  world (login test_params (unreadable_request [("shop", "shop1")]) []) = [].
Proof.
  apply (@login_unreadable_body_rethrows
           _ _ _ test_params (unreadable_request [("shop", "shop1")])
           {| error_name := "TypeError";
              error_message := "Could not parse content as FormData." |} []).
  reflexivity.
Defined.

(** A multipart POST whose `shop` field is a file, to a URL whose query
    names a good shop. *)
Lemma login_file_shop_throws_witness :
  (exists err : JsError,
      completion (login test_params
                        (post_request [("shop", EntryFile {| file_name := "shop.txt" |})]
                                      [("shop", "shop1")]) [])
      = Throw (ThrownError err) /\
      error_name err = "TypeError") /\
  calls (login test_params
               (post_request [("shop", EntryFile {| file_name := "shop.txt" |})]
                             [("shop", "shop1")]) [])
  = [].
Proof.
  apply (@login_file_shop_throws
           _ _ _ test_params
           (post_request [("shop", EntryFile {| file_name := "shop.txt" |})]
                         [("shop", "shop1")])
           [("shop", EntryFile {| file_name := "shop.txt" |})]
           {| file_name := "shop.txt" |} []).
  - reflexivity.
  - reflexivity.
Defined.

Lemma login_redirect_only_to_sanitized_witness :
  exists (fd : FormData) (sanitized : string),
    request_formData (post_request [] [("shop", "shop1")]) = Fulfilled fd /\
    validation_passes test_params
                      (select_shop fd (request_url (post_request [] [("shop", "shop1")])))
                      [] sanitized /\
    redirect (path (auth (config test_params)) ++ "?shop=" ++ sanitized)
    = Normal {| status := 302; location := "/auth?shop=shop1.myshopify.com" |}.
Proof.
  apply (@login_redirect_only_to_sanitized
           _ _ _ test_params (post_request [] [("shop", "shop1")]) []
           {| status := 302; location := "/auth?shop=shop1.myshopify.com" |}).
  reflexivity.
Defined.

Lemma login_call_discipline_witness :
  sanitize_calls
    (calls (login test_params (post_request [] [("shop", "https://shop1.myshopify.com")]) []))
  = [] /\
  (calls (login broken_path_params (post_request [] [("shop", "shop1")]) []) = [] \/
   exists (arg message : string) (context : LogContext),
     calls (login broken_path_params (post_request [] [("shop", "shop1")]) []) =
     [CallSanitizeShop arg; CallLogger LogInfo message context]).
Proof.
  split.
  - apply (proj1 (proj2 (proj2 (@login_call_discipline
                                  _ _ _ test_params
                                  (post_request [] [("shop", "https://shop1.myshopify.com")])
                                  [])))
                 {| shop := InvalidProtocol |}).
    + reflexivity.
    + discriminate.
  - apply (proj2 (proj2 (proj2 (@login_call_discipline
                                  _ _ _ broken_path_params
                                  (post_request [] [("shop", "shop1")]) [])))
                 (TypeError "Invalid header value")).
    reflexivity.
Defined.

Lemma login_logs_once_witness :
  exists context : LogContext,
    filter is_logger_call
           (calls (login test_params (post_request [("shop", EntryString "shop1")] []) []))
    = [CallLogger LogInfo
                  ("Redirecting login request to "
                   ++ location {| status := 302;
                                  location := "/auth?shop=shop1.myshopify.com" |})
                  context].
Proof.
  apply (proj2 (proj2 (@login_logs_once
                         _ _ _ test_params
                         (post_request [("shop", EntryString "shop1")] []) []))
               {| status := 302; location := "/auth?shop=shop1.myshopify.com" |}).
  reflexivity.
Defined.

Lemma login_sanitizer_argument_witness :
  contains_dot "shop1.myshopify.com" /\
  "shop1.myshopify.com" <> "" /\
  startsWith "shop1.myshopify.com" "http" = false.
Proof.
  apply (@login_sanitizer_argument
           _ _ _ test_params (post_request [("shop", EntryString "shop1")] []) []
           "shop1.myshopify.com").
  left. reflexivity.
Defined.

(** The embedded app's login form and a bare link carry the same shop. *)
Lemma login_reads_only_shop_witness :
  login test_params
        (post_request [("embedded", EntryString "1"); ("shop", EntryString "shop1");
                       ("shop", EntryString "shop2")]
                      [("host", "YWRtaW4"); ("shop", "shop3")]) []
  = login test_params
          {| request_url := {| url_base := "https://other.example/login";
                               searchParams := [("shop", "shop3")] |};
             request_formData := Fulfilled [("shop", EntryString "shop1")] |} [].
Proof.
  apply (@login_reads_only_shop
           _ _ _ test_params
           (post_request [("embedded", EntryString "1"); ("shop", EntryString "shop1");
                          ("shop", EntryString "shop2")]
                         [("host", "YWRtaW4"); ("shop", "shop3")])
           {| request_url := {| url_base := "https://other.example/login";
                                searchParams := [("shop", "shop3")] |};
              request_formData := Fulfilled [("shop", EntryString "shop1")] |}
           [("embedded", EntryString "1"); ("shop", EntryString "shop1");
            ("shop", EntryString "shop2")]
           [("shop", EntryString "shop1")] []).
  - reflexivity.
  - reflexivity.
  - reflexivity.
  - reflexivity.
Defined.

Lemma login_normalizes_bare_shop_witness :
  sanitize_calls (calls (login test_params (post_request [("shop", EntryString "shop1")] []) []))
  = ["shop1" ++ ".myshopify.com"] /\
  sanitize_calls (calls (login test_params (post_request [] [("shop", "shop1.myshopify.com")]) []))
  = ["shop1.myshopify.com"].
Proof.
  split.
  - apply (proj1 (@login_normalizes_bare_shop
                    _ _ _ test_params (post_request [("shop", EntryString "shop1")] [])
                    [("shop", EntryString "shop1")] "shop1" []
                    eq_refl eq_refl ltac:(discriminate) eq_refl)).
    apply indexOf_dot_None. reflexivity.
  - apply (proj2 (@login_normalizes_bare_shop
                    _ _ _ test_params (post_request [] [("shop", "shop1.myshopify.com")])
                    [] "shop1.myshopify.com" []
                    eq_refl eq_refl ltac:(discriminate) eq_refl)).
    unfold contains_dot. cbn. tauto.
Defined.

Lemma login_refused_shop_is_InvalidShop_witness :
  completion (login test_params (post_request [] [("shop", "shop1.example.com")]) [])
  = Normal {| shop := InvalidShop |} /\
  calls (login test_params (post_request [] [("shop", "shop1.example.com")]) [])
  = [CallSanitizeShop (shopWithDot_of "shop1.example.com");
     CallLogger LogDebug "Invalid shop parameter"
                [("shop", JsString (shopWithDot_of "shop1.example.com"))]].
Proof.
  apply (@login_refused_shop_is_InvalidShop
           _ _ _ test_params (post_request [] [("shop", "shop1.example.com")])
           [] "shop1.example.com" []).
  - reflexivity.
  - reflexivity.
  - discriminate.
  - reflexivity.
  - left. reflexivity.
Defined.

Lemma registerWebhooks_logs_each_result_witness :
  map log_summary
      (tl (calls (registerWebhooks test_stringify test_params
                                   {| session := test_session |} [])))
  = [Some (LogDebug, JsString "PRODUCTS_CREATE", JsString "shop1.myshopify.com");
     Some (LogError, JsString "ORDERS_PAID", JsString "shop1.myshopify.com");
     Some (LogDebug, JsString "ORDERS_PAID", JsString "shop1.myshopify.com")].
Proof.
  apply (@registerWebhooks_logs_each_result
           _ _ test_params test_stringify {| session := test_session |} []
           test_response).
  - reflexivity.
  - intros topic r [Heq | []]. injection Heq as _ <-. now exists (JsString "{errors}").
Defined.

(** A serialiser that hides the payload of every result but the failed
    one of the test response. *)
Lemma registerWebhooks_serialises_failures_only_witness :
  registerWebhooks test_stringify test_params {| session := test_session |} []
  = registerWebhooks (fun j : string => if j =? "{errors}"
                                        then test_stringify j
                                        else Normal (JsString "hidden"))
                     test_params {| session := test_session |} [].
Proof.
  apply (@registerWebhooks_serialises_failures_only
           _ _ test_params
           test_stringify
           (fun j : string => if j =? "{errors}"
                              then test_stringify j
                              else Normal (JsString "hidden"))
           {| session := test_session |} []).
  intros response topic r Hresponse Hfailed.
  injection Hresponse as <-.
  destruct Hfailed as [Heq | []].
  injection Heq as _ <-. reflexivity.
Defined.
